(** * Election Management System: the voting core of [app.py]

    A shallow embedding of the Flask/MongoDB application in [src/app.py].
    Every route of the script is a function from the document store to a
    result and a new document store, written in a small state-and-exception
    monad, so that an uncaught Python exception after a write keeps the
    write, as it does on MongoDB without transactions.

    Modelling decisions:
    - identifiers (document [_id]s, the session's user id, the ids in a
      request) are strings, as they arrive from the URL or the JSON body;
    - a [datetime] is an integer number of clock ticks, totally ordered
      (naive datetimes, as [datetime.now()] and the driver produce them);
    - [datetime.now()] is an input: [now k] is the reading of the [k]-th call
      made while one request is served;
    - the [_id] that the driver assigns to an inserted candidate or election
      is an input as well ([oid]).  The driver's value is an ObjectId, which
      no string of a later request equals; the statements about finding an
      election or a candidate therefore start from a store that holds the
      document under the id asked for.  The other collections are never
      queried by [_id], so their documents do not carry one;
    - an integer is stored if it fits 8 bytes ([bson_int]); the rounding of
      a stored [datetime] to milliseconds is not modelled;
    - the session cookie is an input of each request; the [login] route,
      which writes the session and not the store, is modelled on its own
      ([login]) and is not one of the requests of [handle]; the two routes
      that only render a page are left out;
    - a Python [dict] (the [votes] tally of an election) is an association
      list in insertion order, read with [dict_get] (first binding of a key);
    - request fields are present and of the expected type ([age] is an
      integer, so that [int(age)] is [age]); a missing field, which Python
      reads as [None], is not modelled except where falsiness is tested
      ([send_notification]), where the empty string stands for it. *)

From Stdlib Require Import List String ZArith Bool Lia.
Import ListNotations.
Local Open Scope string_scope.
Local Open Scope Z_scope.

Set Implicit Arguments.

(** ** Documents *)

Definition Id := string.
Definition datetime := Z.

(** [votes] of an election document: candidate id |-> count. *)
Definition tally := list (Id * Z).

Module Admin.
Record t := mk { admin_id : Id; name : string; cnic : string; dob : string }.
End Admin.

Module Voter.
(** [voter_id] is optional: [login] reads it, [register_voter] does not
    write it. *)
Record t := mk {
  name : string;
  cnic : string;
  dob : string;
  age : Z;
  voted : bool;
  voter_id : option Id
}.
End Voter.

Module Candidate.
Record t := mk { _id : Id; name : string; party : string }.
End Candidate.

Module Election.
(** [votes] is optional because [get_results] reads it with
    [election.get('votes', {})]. *)
Record t := mk {
  _id : Id;
  name : string;
  start_date : datetime;
  end_date : datetime;
  votes : option tally
}.
End Election.

Module Vote.
Record t := mk { voter_id : Id; election_id : Id; candidate_id : Id }.
End Vote.

Module Notification.
Record t := mk { recipient_id : Id; message : string; timestamp : datetime }.
End Notification.

(** ** The document store [mongo.db] *)

Record mongo_db := mkDb {
  admins : list Admin.t;
  voters : list Voter.t;
  candidates : list Candidate.t;
  elections : list Election.t;
  votes : list Vote.t;
  notifications : list Notification.t
}.

Definition empty_db : mongo_db := mkDb [] [] [] [] [] [].

(** ** Results, exceptions and the handler monad *)

Inductive exn := TypeError | ValueError | KeyError | OverflowError.

Inductive result (A : Type) :=
| Return (a : A)
| Raise (e : exn).
Arguments Raise {A} e.

Definition Handler (A : Type) := mongo_db -> result A * mongo_db.

Definition ret {A} (a : A) : Handler A := fun d => (Return a, d).
Definition raise {A} (e : exn) : Handler A := fun d => (Raise e, d).
Definition lift {A} (r : result A) : Handler A := fun d => (r, d).
Definition bind {A B} (m : Handler A) (k : A -> Handler B) : Handler B :=
  fun d =>
    match m d with
    | (Return a, d') => k a d'
    | (Raise e, d') => (Raise e, d')
    end.

Notation "x <- m ;; k" := (bind m (fun x => k))
  (at level 61, m at next level, right associativity).
Notation "m ;; k" := (bind m (fun _ => k))
  (at level 61, right associativity).

(** ** Collections: [find_one], [find], [insert_one], [delete_one] *)

Record collection (D : Type) := mkColl {
  docs : mongo_db -> list D;
  with_docs : list D -> mongo_db -> mongo_db
}.

Definition set_admins (l : list Admin.t) (d : mongo_db) : mongo_db :=
  mkDb l (voters d) (candidates d) (elections d) (votes d) (notifications d).
Definition set_voters (l : list Voter.t) (d : mongo_db) : mongo_db :=
  mkDb (admins d) l (candidates d) (elections d) (votes d) (notifications d).
Definition set_candidates (l : list Candidate.t) (d : mongo_db) : mongo_db :=
  mkDb (admins d) (voters d) l (elections d) (votes d) (notifications d).
Definition set_elections (l : list Election.t) (d : mongo_db) : mongo_db :=
  mkDb (admins d) (voters d) (candidates d) l (votes d) (notifications d).
Definition set_votes (l : list Vote.t) (d : mongo_db) : mongo_db :=
  mkDb (admins d) (voters d) (candidates d) (elections d) l (notifications d).
Definition set_notifications (l : list Notification.t) (d : mongo_db) : mongo_db :=
  mkDb (admins d) (voters d) (candidates d) (elections d) (votes d) l.

(** The handles [mongo.db.admins], [mongo.db.voters], ... *)
Module db.
Definition admins : collection Admin.t := mkColl admins set_admins.
Definition voters : collection Voter.t := mkColl voters set_voters.
Definition candidates : collection Candidate.t := mkColl candidates set_candidates.
Definition elections : collection Election.t := mkColl elections set_elections.
Definition votes : collection Vote.t := mkColl votes set_votes.
Definition notifications : collection Notification.t :=
  mkColl notifications set_notifications.
End db.

(** The first document that matches the query, in natural order. *)
Definition find_one {D} (c : collection D) (q : D -> bool) : Handler (option D) :=
  fun d => (Return (find q (docs c d)), d).

Definition find_all {D} (c : collection D) (q : D -> bool) : Handler (list D) :=
  fun d => (Return (filter q (docs c d)), d).

Definition insert_one {D} (c : collection D) (x : D) : Handler unit :=
  fun d => (Return tt, with_docs c (docs c d ++ [x]) d).

Fixpoint remove_first {D} (q : D -> bool) (l : list D) : list D :=
  match l with
  | [] => []
  | x :: r => if q x then r else x :: remove_first q r
  end.

(** [delete_one] removes the first match and answers [deleted_count]. *)
Definition delete_one {D} (c : collection D) (q : D -> bool) : Handler nat :=
  fun d =>
    (Return (if existsb q (docs c d) then 1%nat else 0%nat),
     with_docs c (remove_first q (docs c d)) d).

(** Python truthiness of what [find_one] returns: a document is a non-empty
    dict, [None] is false. *)
Definition truthy {D} (o : option D) : bool :=
  match o with Some _ => true | None => false end.

(** ** Responses *)

Inductive payload :=
| ResultsData (results : tally) (candidate_id : Id) (name : string) (votes : Z)
| ElectionList (l : list (string * string))
| NotificationList (l : list (string * datetime)).

Record response := mkResponse {
  success : bool;
  message : string;
  data : option payload
}.

(** What a view function hands back to Flask. *)
Inductive view :=
| Json (r : response)
| Redirect (endpoint : string).

Definition format_response (success : bool) (message : string) (data : option payload) : view :=
  Json (mkResponse success message data).

(** ** Sessions and the access decorators *)

Record user := mkUser { id : Id; role : string }.

(** [session.get('user')]. *)
Definition session := option user.

Definition login_required (s : session) (f : Handler view) : Handler view :=
  match s with
  | None => ret (Redirect "login_page")
  | Some _ => f
  end.

Definition admin_required (s : session) (f : Handler view) : Handler view :=
  match s with
  | None => ret (Redirect "login_page")
  | Some u => if negb (role u =? "admin")%string then ret (Redirect "login_page") else f
  end.

(** ** [before_request]: the bootstrap administrator *)

Definition create_admin : Handler unit :=
  a <- find_one db.admins (fun a => (Admin.cnic a =? "admin_cnic")%string) ;;
  if negb (truthy a)
  then insert_one db.admins (Admin.mk "admin" "Admin" "admin_cnic" "1970-01-01")
  else ret tt.

(** ** Voter registration *)

(** The integers a BSON document can hold: 8 bytes.  [insert_one] raises
    OverflowError on a greater one, before anything is stored. *)
Definition bson_int (z : Z) : bool := (- 2 ^ 63 <=? z) && (z <? 2 ^ 63).
Arguments bson_int z : simpl never.

Definition register_voter (name cnic dob : string) (age : Z) : Handler view :=
  existing <- find_one db.voters (fun v => (Voter.cnic v =? cnic)%string) ;;
  if truthy existing then ret (format_response false "Voter already registered." None)
  else if age <? 18 then ret (format_response false "Voter must be at least 18 years old." None)
  else if negb (bson_int age) then raise OverflowError
  else
    insert_one db.voters (Voter.mk name cnic dob age false None) ;;
    ret (format_response true "Voter registered successfully." None).

(** ** Candidate management *)

Definition add_candidate (oid : Id) (name party : string) : Handler view :=
  existing <- find_one db.candidates
                (fun c => (Candidate.name c =? name)%string && (Candidate.party c =? party)%string) ;;
  if truthy existing then ret (format_response false "Candidate already exists." None)
  else
    insert_one db.candidates (Candidate.mk oid name party) ;;
    ret (format_response true "Candidate added successfully." None).

(** ** Election scheduling *)

Definition create_election (oid : Id) (name : string) (start_date end_date : datetime)
  : Handler view :=
  if start_date >=? end_date then ret (format_response false "Invalid election schedule." None)
  else
    insert_one db.elections (Election.mk oid name start_date end_date (Some [])) ;;
    ret (format_response true "Election created successfully." None).

Definition delete_election (election_id : Id) : Handler view :=
  deleted_count <- delete_one db.elections (fun e => (Election._id e =? election_id)%string) ;;
  if (deleted_count =? 0)%nat then ret (format_response false "Election not found." None)
  else ret (format_response true "Election deleted successfully." None).

(** ** Results *)

Definition dict_get (d : tally) (k : Id) : option Z :=
  option_map snd (find (fun kv => (fst kv =? k)%string) d).

Definition keys (d : tally) : list Id := map fst d.

(** The scan of Python's [max(iterable, key=...)]: the running maximum is
    replaced only by a strictly greater key value, so the first maximal item
    wins.  [votes.get] answers [None] for an absent key, and comparing [None]
    with an integer raises [TypeError]. *)
Fixpoint max_scan (key : Id -> option Z) (best : Id) (rest : list Id) : result Id :=
  match rest with
  | [] => Return best
  | k :: rest' =>
      match key k, key best with
      | Some vk, Some vb =>
          if vk >? vb then max_scan key k rest' else max_scan key best rest'
      | _, _ => Raise TypeError
      end
  end.

Definition py_max (items : list Id) (key : Id -> option Z) : result Id :=
  match items with
  | [] => Raise ValueError
  | k :: rest => max_scan key k rest
  end.

Definition get_results (election_id : Id) : Handler view :=
  election <- find_one db.elections (fun e => (Election._id e =? election_id)%string) ;;
  match election with
  | None => ret (format_response false "Election not found." None)
  | Some election =>
      let votes := match Election.votes election with Some t => t | None => [] end in
      match votes with
      | [] => ret (format_response false "No votes cast yet." None)
      | _ :: _ =>
          winner_id <- lift (py_max (keys votes) (dict_get votes)) ;;
          winner <- find_one db.candidates (fun c => (Candidate._id c =? winner_id)%string) ;;
          (* winner['name'] on None is a TypeError *)
          name <- match winner with
                  | None => raise TypeError
                  | Some w => ret (Candidate.name w)
                  end ;;
          (* votes[winner_id] *)
          count <- match dict_get votes winner_id with
                   | None => raise KeyError
                   | Some n => ret n
                   end ;;
          ret (format_response true "Results retrieved successfully."
                 (Some (ResultsData votes winner_id name count)))
      end
  end.

(** ** Elections open now *)

Definition available_elections (now : nat -> datetime) : Handler view :=
  let current_time := now 0%nat in
  open <- find_all db.elections
            (fun e => (Election.start_date e <=? current_time)
                      && (Election.end_date e >=? current_time)) ;;
  ret (format_response true "Available elections retrieved successfully."
         (Some (ElectionList (map (fun e => (Election._id e, Election.name e)) open)))).

(** ** Notifications *)

Definition falsy (s : string) : bool := (s =? "")%string.

Definition send_notification (now : nat -> datetime) (recipient_id message : string)
  : Handler view :=
  if falsy recipient_id || falsy message
  then ret (format_response false "Recipient ID and message are required." None)
  else
    insert_one db.notifications (Notification.mk recipient_id message (now 0%nat)) ;;
    ret (format_response true "Notification sent successfully." None).

Definition get_notifications (recipient_id : Id) : Handler view :=
  l <- find_all db.notifications (fun n => (Notification.recipient_id n =? recipient_id)%string) ;;
  ret (format_response true "Notifications retrieved successfully."
         (Some (NotificationList
                  (map (fun n => (Notification.message n, Notification.timestamp n)) l)))).

(** ** Casting a vote *)

Definition cast_vote (voter_id : Id) (now : nat -> datetime) (election_id candidate_id : Id)
  : Handler view :=
  found <- find_one db.elections (fun e => (Election._id e =? election_id)%string) ;;
  if negb (truthy found) then ret (format_response false "Election not found." None)
  else
    election <- find_one db.elections (fun e => (Election._id e =? election_id)%string) ;;
    match election with
    | None => raise TypeError
    | Some election =>
        if (now 0%nat <? Election.start_date election)
           || (now 1%nat >? Election.end_date election)
        then ret (format_response false "Voting is not allowed for this election period." None)
        else
          prior <- find_one db.votes
                     (fun v => (Vote.voter_id v =? voter_id)%string
                               && (Vote.election_id v =? election_id)%string) ;;
          if truthy prior
          then ret (format_response false "You have already voted in this election." None)
          else
            insert_one db.votes (Vote.mk voter_id election_id candidate_id) ;;
            insert_one db.notifications
              (Notification.mk voter_id
                 ("Your vote in election " ++ election_id ++ " has been successfully cast.")
                 (now 2%nat)) ;;
            ret (format_response true "Vote cast successfully." None)
    end.

(** ** Requests *)

Inductive request :=
| RegisterVoter (name cnic dob : string) (age : Z)
| AddCandidate (name party : string)
| CreateElection (name : string) (start_date end_date : datetime)
| DeleteElection (election_id : Id)
| GetResults (election_id : Id)
| AvailableElections
| SendNotification (recipient_id message : string)
| GetNotifications (recipient_id : Id)
| CastVote (election_id candidate_id : Id).

(** [session['user']['id']] of [cast_vote]; the decorator has checked that
    the session holds a user. *)
Definition session_user_id (s : session) : Handler Id :=
  match s with
  | None => raise KeyError
  | Some u => ret (id u)
  end.

Definition dispatch (s : session) (now : nat -> datetime) (oid : Id) (r : request)
  : Handler view :=
  match r with
  | RegisterVoter name cnic dob age => admin_required s (register_voter name cnic dob age)
  | AddCandidate name party => admin_required s (add_candidate oid name party)
  | CreateElection name sd ed => admin_required s (create_election oid name sd ed)
  | DeleteElection e => admin_required s (delete_election e)
  | GetResults e => login_required s (get_results e)
  | AvailableElections => login_required s (available_elections now)
  | SendNotification rcpt msg => admin_required s (send_notification now rcpt msg)
  | GetNotifications rcpt => login_required s (get_notifications rcpt)
  | CastVote e c =>
      login_required s (voter_id <- session_user_id s ;; cast_vote voter_id now e c)
  end.

(** One request: the [before_request] hook, then the route. *)
Definition handle (s : session) (now : nat -> datetime) (oid : Id) (r : request)
  : Handler view :=
  create_admin ;; dispatch s now oid r.

(** The stores the application can reach from the empty one. *)
Inductive reachable : mongo_db -> Prop :=
| reach_empty : reachable empty_db
| reach_step d s now oid r :
    reachable d -> reachable (snd (handle s now oid r d)).

(** ** The outcomes, under the names the specification gives them *)

Definition ElectionNotFound : view := format_response false "Election not found." None.
Definition VotingClosed : view :=
  format_response false "Voting is not allowed for this election period." None.
Definition AlreadyVoted : view :=
  format_response false "You have already voted in this election." None.
Definition VoteCast : view := format_response true "Vote cast successfully." None.
Definition InvalidSchedule : view := format_response false "Invalid election schedule." None.
Definition ElectionCreated : view := format_response true "Election created successfully." None.
Definition ElectionDeleted : view := format_response true "Election deleted successfully." None.
Definition NoVotesCast : view := format_response false "No votes cast yet." None.
Definition DuplicateCnic : view := format_response false "Voter already registered." None.
Definition Underage : view :=
  format_response false "Voter must be at least 18 years old." None.
Definition VoterRegistered : view := format_response true "Voter registered successfully." None.

(** A view that reports a failure to the caller. *)
Definition is_failure (v : view) : bool :=
  match v with
  | Json r => negb (success r)
  | Redirect _ => false
  end.

(** ** Queries and measures used in the statements *)

Definition by_election_id (election_id : Id) (e : Election.t) : bool :=
  (Election._id e =? election_id)%string.

Definition by_voter_and_election (voter_id election_id : Id) (v : Vote.t) : bool :=
  (Vote.voter_id v =? voter_id)%string && (Vote.election_id v =? election_id)%string.

(** [mongo.db.elections.find_one({"_id": election_id})], as a pure lookup. *)
Definition lookup_election (election_id : Id) (d : mongo_db) : option Election.t :=
  find (by_election_id election_id) (elections d).

(** Is there a Vote record for the pair? *)
Definition has_voted (voter_id election_id : Id) (d : mongo_db) : bool :=
  existsb (by_voter_and_election voter_id election_id) (votes d).

(** The tally of an election document, [election.get('votes', {})]. *)
Definition tally_of (e : Election.t) : tally :=
  match Election.votes e with Some t => t | None => [] end.

Definition tally_sum (t : tally) : Z := fold_right Z.add 0 (map snd t).

(** Number of Vote records whose [election_id] is the given one. *)
Definition votes_for (election_id : Id) (d : mongo_db) : nat :=
  List.length (filter (fun v => (Vote.election_id v =? election_id)%string) (votes d)).

(** Number of Vote records of one voter in one election. *)
Definition votes_of_pair (voter_id election_id : Id) (d : mongo_db) : nat :=
  List.length (filter (by_voter_and_election voter_id election_id) (votes d)).

Definition one_vote_per_pair (d : mongo_db) : Prop :=
  forall voter_id election_id, (votes_of_pair voter_id election_id d <= 1)%nat.

Definition conservation (d : mongo_db) : Prop :=
  forall e, In e (elections d) ->
    tally_sum (tally_of e) = Z.of_nat (votes_for (Election._id e) d).

(** The store after a committed vote, as [cast_vote] writes it. *)
Definition vote_committed (voter_id : Id) (now : nat -> datetime)
    (election_id candidate_id : Id) (d : mongo_db) : mongo_db :=
  set_notifications
    (notifications d ++
       [Notification.mk voter_id
          ("Your vote in election " ++ election_id ++ " has been successfully cast.")
          (now 2%nat)])
    (set_votes (votes d ++ [Vote.mk voter_id election_id candidate_id]) d).

(** [mongo.db.candidates.find_one({"_id": candidate_id})], as a pure lookup. *)
Definition lookup_candidate (candidate_id : Id) (d : mongo_db) : option Candidate.t :=
  find (fun c => (Candidate._id c =? candidate_id)%string) (candidates d).

(** Is the CNIC already in the voter registry? *)
Definition cnic_registered (cnic : string) (d : mongo_db) : bool :=
  existsb (fun v => (Voter.cnic v =? cnic)%string) (voters d).

(** ** Sample stores *)

(** One election, open from tick 0 to tick 10, nothing else: no candidate,
    no vote. *)
Definition ballot_db : mongo_db :=
  mkDb [] [] [] [Election.mk "e1" "General" 0 10 (Some [])] [] [].

(** The same store once voter [v1] has voted in [e1]. *)
Definition voted_db : mongo_db :=
  mkDb [] [] [] [Election.mk "e1" "General" 0 10 (Some [])] [Vote.mk "v1" "e1" "c1"] [].

Definition admin_session : session := Some (mkUser "admin" "admin").
Definition voter_session (voter_id : Id) : session := Some (mkUser voter_id "voter").

(** An election whose winner [c2] has no Candidate record. *)
Definition orphan_winner_db : mongo_db :=
  mkDb [] [] [Candidate.mk "c1" "Ann" "Blue"]
    [Election.mk "e1" "General" 0 10 (Some [("c1", 2); ("c2", 3)])] [] [].

(** An election with one counted candidate and an empty candidate registry. *)
Definition no_candidates_db : mongo_db :=
  mkDb [] [] [] [Election.mk "e1" "General" 0 10 (Some [("c9", 1)])] [] [].

(** A well-formed store with a tie between [c1] and [c3]. *)
Definition counted_db : mongo_db :=
  mkDb [] []
    [Candidate.mk "c1" "Ann" "Blue"; Candidate.mk "c2" "Bob" "Red";
     Candidate.mk "c3" "Cy" "Green"]
    [Election.mk "e1" "General" 0 10 (Some [("c2", 1); ("c1", 4); ("c3", 4)])] [] [].

(** A registry that already holds CNIC 35202. *)
Definition registry_db : mongo_db :=
  mkDb [] [Voter.mk "Ann" "35202" "1990-01-01" 34 false None] [] [] [] [].

(** ** Logging in *)

(** The JSON body of what [login] answers: [success], [message] and the
    [role] entry of [data]. *)
Record login_reply := mkLoginReply {
  login_success : bool;
  login_message : string;
  login_role : option string
}.

(** The POST branch of [login], with the session it leaves.
    [user['voter_id']] is a KeyError on a voter document without that field,
    raised before the session is written.  The voters are searched before
    the admins. *)
Definition login (cnic dob : string) (s : session) : Handler (login_reply * session) :=
  user <- find_one db.voters
            (fun v => (Voter.cnic v =? cnic)%string && (Voter.dob v =? dob)%string) ;;
  match user with
  | Some user =>
      match Voter.voter_id user with
      | None => raise KeyError
      | Some voter_id =>
          ret (mkLoginReply true "Login successful" (Some "voter"),
               Some (mkUser voter_id "voter"))
      end
  | None =>
      admin <- find_one db.admins
                 (fun a => (Admin.cnic a =? cnic)%string && (Admin.dob a =? dob)%string) ;;
      match admin with
      | Some a =>
          ret (mkLoginReply true "Login successful" (Some "admin"),
               Some (mkUser (Admin.admin_id a) "admin"))
      | None => ret (mkLoginReply false "Invalid credentials" None, s)
      end
  end.

(** ** More vocabulary for the statements *)

(** The document [create_admin] inserts. *)
Definition bootstrap_admin : Admin.t := Admin.mk "admin" "Admin" "admin_cnic" "1970-01-01".

Definition has_bootstrap_admin (d : mongo_db) : bool :=
  existsb (fun a => (Admin.cnic a =? "admin_cnic")%string) (admins d).



Definition candidate_exists (name party : string) (d : mongo_db) : bool :=
  existsb (fun c => (Candidate.name c =? name)%string && (Candidate.party c =? party)%string)
    (candidates d).

Definition unique_cnic (d : mongo_db) : Prop := NoDup (map Voter.cnic (voters d)).

Definition unique_candidates (d : mongo_db) : Prop :=
  NoDup (map (fun c => (Candidate.name c, Candidate.party c)) (candidates d)).

(** Every election of the store has the tally [create_election] gave it. *)
Definition all_tallies_empty (d : mongo_db) : Prop :=
  Forall (fun e => Election.votes e = Some []) (elections d).

(** MongoDB keeps [_id] unique within a collection. *)
Definition unique_election_ids (d : mongo_db) : Prop :=
  NoDup (map Election._id (elections d)).

(** Does a voter document carry this CNIC and date of birth? *)
Definition voter_matches (cnic dob : string) (d : mongo_db) : bool :=
  existsb (fun v => (Voter.cnic v =? cnic)%string && (Voter.dob v =? dob)%string) (voters d).

(** What [get_notifications] shows for a recipient. *)
Definition notifications_of (recipient_id : Id) (d : mongo_db) : list (string * datetime) :=
  map (fun n => (Notification.message n, Notification.timestamp n))
    (filter (fun n => (Notification.recipient_id n =? recipient_id)%string) (notifications d)).

Definition confirmation (election_id : Id) : string :=
  "Your vote in election " ++ election_id ++ " has been successfully cast.".

(** The writes a route can make to the store, each with the condition under
    which the route makes it. *)
Inductive route_write (d : mongo_db) : mongo_db -> Prop :=
| write_nothing : route_write d d
| write_voter name cnic dob age :
    cnic_registered cnic d = false -> 18 <= age ->
    route_write d (set_voters (voters d ++ [Voter.mk name cnic dob age false None]) d)
| write_candidate oid name party :
    candidate_exists name party d = false ->
    route_write d (set_candidates (candidates d ++ [Candidate.mk oid name party]) d)
| write_election oid name start_date end_date :
    start_date < end_date ->
    route_write d
      (set_elections (elections d ++ [Election.mk oid name start_date end_date (Some [])]) d)
| write_delete election_id :
    route_write d
      (set_elections (remove_first (by_election_id election_id) (elections d)) d)
| write_notification recipient_id message t :
    recipient_id <> "" -> message <> "" ->
    route_write d
      (set_notifications (notifications d ++ [Notification.mk recipient_id message t]) d)
| write_vote voter_id now election_id candidate_id el :
    lookup_election election_id d = Some el ->
    Election.start_date el <= now 0%nat -> now 1%nat <= Election.end_date el ->
    has_voted voter_id election_id d = false ->
    route_write d (vote_committed voter_id now election_id candidate_id d).

(** More sample stores. *)

(** The store every request sees after [create_admin]. *)
Definition seeded_db : mongo_db := mkDb [bootstrap_admin] [] [] [] [] [].

(** Two elections: [e1] open from 0 to 10, [e2] from 20 to 30. *)
Definition two_elections_db : mongo_db :=
  mkDb [bootstrap_admin] [] []
    [Election.mk "e1" "General" 0 10 (Some []); Election.mk "e2" "Local" 20 30 (Some [])]
    [Vote.mk "v1" "e1" "c1"] [].

(** ** Proof automation *)

(** Unfolds the monad and the collection primitives. *)
Ltac run_handler :=
  unfold bind, ret, raise, lift, find_one, find_all, insert_one, delete_one; simpl.

(** ** Basic facts about the store *)

Lemma find_truthy_existsb {D} (q : D -> bool) (l : list D) :
  truthy (find q l) = existsb q l.
Proof.
  induction l as [|x l IH]; simpl; [reflexivity|].
  destruct (q x); simpl; [reflexivity | exact IH].
Qed.

Lemma existsb_filter_length {D} (q : D -> bool) (l : list D) :
  existsb q l = false <-> List.length (filter q l) = 0%nat.
Proof.
  induction l as [|x l IH]; simpl; [tauto|].
  destruct (q x); simpl; [split; discriminate | exact IH].
Qed.

Lemma filter_length_snoc {D} (q : D -> bool) (l : list D) (x : D) :
  List.length (filter q (l ++ [x])) = (List.length (filter q l) + (if q x then 1 else 0))%nat.
Proof.
  rewrite filter_app, List.length_app. simpl. destruct (q x); reflexivity.
Qed.

(** [cast_vote], read as a decision list. *)
Lemma cast_vote_cases voter_id now election_id candidate_id d :
  cast_vote voter_id now election_id candidate_id d =
  match lookup_election election_id d with
  | None => (Return ElectionNotFound, d)
  | Some el =>
      if (now 0%nat <? Election.start_date el) || (now 1%nat >? Election.end_date el)
      then (Return VotingClosed, d)
      else if has_voted voter_id election_id d
           then (Return AlreadyVoted, d)
           else (Return VoteCast, vote_committed voter_id now election_id candidate_id d)
  end.
Proof.
  unfold cast_vote, lookup_election, has_voted, bind, find_one, by_election_id. simpl.
  destruct (find _ (elections d)) as [el|] eqn:Hel; simpl; [|reflexivity].
  rewrite Hel.
  destruct (_ || _); [reflexivity|].
  fold (by_voter_and_election voter_id election_id).
  rewrite find_truthy_existsb.
  destruct (existsb _ (votes d)); reflexivity.
Qed.

Lemma vote_committed_votes voter_id now election_id candidate_id d :
  votes (vote_committed voter_id now election_id candidate_id d) =
  (votes d ++ [Vote.mk voter_id election_id candidate_id])%list.
Proof. reflexivity. Qed.

Lemma vote_committed_elections voter_id now election_id candidate_id d :
  elections (vote_committed voter_id now election_id candidate_id d) = elections d.
Proof. reflexivity. Qed.

(** [cast_vote] never writes to the [elections] collection, so no tally
    ever changes. *)
Lemma cast_vote_elections voter_id now election_id candidate_id d :
  elections (snd (cast_vote voter_id now election_id candidate_id d)) = elections d.
Proof.
  rewrite cast_vote_cases.
  destruct (lookup_election election_id d) as [el|]; [|reflexivity].
  destruct (_ || _); [reflexivity|].
  destruct (has_voted voter_id election_id d); reflexivity.
Qed.

(** [cast_vote] raises no exception: the second [find_one] sees what the
    first one saw. *)
Lemma cast_vote_returns voter_id now election_id candidate_id d :
  exists v, fst (cast_vote voter_id now election_id candidate_id d) = Return v.
Proof.
  rewrite cast_vote_cases.
  destruct (lookup_election election_id d) as [el|]; [|eexists; reflexivity].
  destruct (_ || _); [eexists; reflexivity|].
  destruct (has_voted voter_id election_id d); eexists; reflexivity.
Qed.

Lemma window_open_iff (now : nat -> datetime) (el : Election.t) :
  (now 0%nat <? Election.start_date el) || (now 1%nat >? Election.end_date el) = false <->
  Election.start_date el <= now 0%nat /\ now 1%nat <= Election.end_date el.
Proof.
  rewrite orb_false_iff, Z.ltb_ge, Z.gtb_ltb, Z.ltb_ge. tauto.
Qed.

Lemma window_closed_iff (now : nat -> datetime) (el : Election.t) :
  (now 0%nat <? Election.start_date el) || (now 1%nat >? Election.end_date el) = true <->
  now 0%nat < Election.start_date el \/ Election.end_date el < now 1%nat.
Proof.
  rewrite orb_true_iff, Z.ltb_lt, Z.gtb_ltb, Z.ltb_lt. tauto.
Qed.

(** ** Casting a vote: order of the checks *)

(** C4: [cast_vote] checks, in this order, that the election exists
    (else ElectionNotFound), that the clock lies in the inclusive window
    [start_date <= now <= end_date] (else VotingClosed, whatever the votes
    collection holds), and that the voter has no vote in the election (else
    AlreadyVoted); the first failing check decides, the three failures are
    reported and pairwise distinct, and an attempt that passes all three is
    accepted.  [now 0] is the reading compared with [start_date] and [now 1]
    the one compared with [end_date]. *)
Theorem cast_vote_check_order voter_id now election_id candidate_id d :
  (lookup_election election_id d = None ->
   fst (cast_vote voter_id now election_id candidate_id d) = Return ElectionNotFound) /\
  (forall el, lookup_election election_id d = Some el ->
     (now 0%nat < Election.start_date el \/ Election.end_date el < now 1%nat ->
      fst (cast_vote voter_id now election_id candidate_id d) = Return VotingClosed) /\
     (Election.start_date el <= now 0%nat -> now 1%nat <= Election.end_date el ->
      has_voted voter_id election_id d = true ->
      fst (cast_vote voter_id now election_id candidate_id d) = Return AlreadyVoted) /\
     (Election.start_date el <= now 0%nat -> now 1%nat <= Election.end_date el ->
      has_voted voter_id election_id d = false ->
      fst (cast_vote voter_id now election_id candidate_id d) = Return VoteCast)) /\
  (ElectionNotFound <> VotingClosed /\ ElectionNotFound <> AlreadyVoted /\
   VotingClosed <> AlreadyVoted) /\
  (is_failure ElectionNotFound = true /\ is_failure VotingClosed = true /\
   is_failure AlreadyVoted = true /\ is_failure VoteCast = false).
Proof.
  rewrite cast_vote_cases.
  split; [intros ->; reflexivity|].
  split.
  - intros el ->. split; [|split].
    + intros H. apply window_closed_iff in H. rewrite H. reflexivity.
    + intros H0 H1 Hv.
      assert (Hw := proj2 (window_open_iff now el) (conj H0 H1)).
      rewrite Hw, Hv. reflexivity.
    + intros H0 H1 Hv.
      assert (Hw := proj2 (window_open_iff now el) (conj H0 H1)).
      rewrite Hw, Hv. reflexivity.
  - split; [repeat split; discriminate | repeat split].
Qed.

(** ** Casting a vote: no candidate check *)

(** C9: [cast_vote] never looks at the candidates collection: whatever the
    candidate id, an attempt on an existing election, inside its window, by a
    voter with no vote in it, is accepted and its Vote record is inserted. *)
Theorem cast_vote_any_candidate voter_id now election_id candidate_id d el :
  lookup_election election_id d = Some el ->
  Election.start_date el <= now 0%nat ->
  now 1%nat <= Election.end_date el ->
  has_voted voter_id election_id d = false ->
  fst (cast_vote voter_id now election_id candidate_id d) = Return VoteCast /\
  votes (snd (cast_vote voter_id now election_id candidate_id d)) =
    (votes d ++ [Vote.mk voter_id election_id candidate_id])%list /\
  has_voted voter_id election_id (snd (cast_vote voter_id now election_id candidate_id d))
    = true /\
  candidates (snd (cast_vote voter_id now election_id candidate_id d)) = candidates d.
Proof.
  intros Hel H0 H1 Hv.
  rewrite cast_vote_cases, Hel.
  rewrite (proj2 (window_open_iff now el) (conj H0 H1)), Hv. simpl.
  repeat split.
  unfold has_voted. simpl. rewrite existsb_app. simpl.
  unfold by_voter_and_election at 2. simpl.
  rewrite !String.eqb_refl. simpl. apply orb_true_r.
Qed.

Lemma cast_vote_check_order_witness :
  fst (cast_vote "v1" (fun _ => 5) "e0" "c1" ballot_db) = Return ElectionNotFound /\
  fst (cast_vote "v1" (fun _ => 11) "e1" "c1" voted_db) = Return VotingClosed /\
  fst (cast_vote "v1" (fun _ => 10) "e1" "c2" voted_db) = Return AlreadyVoted /\
  fst (cast_vote "v1" (fun _ => 0) "e1" "c1" ballot_db) = Return VoteCast.
Proof.
  split; [|split; [|split]].
  - destruct (cast_vote_check_order "v1" (fun _ => 5) "e0" "c1" ballot_db) as [H _].
    apply H. reflexivity.
  - destruct (cast_vote_check_order "v1" (fun _ => 11) "e1" "c1" voted_db) as [_ [H _]].
    destruct (H _ eq_refl) as [Hc _]. apply Hc. right. simpl. lia.
  - destruct (cast_vote_check_order "v1" (fun _ => 10) "e1" "c2" voted_db) as [_ [H _]].
    destruct (H _ eq_refl) as [_ [Hd _]]. apply Hd; simpl; try lia. reflexivity.
  - destruct (cast_vote_check_order "v1" (fun _ => 0) "e1" "c1" ballot_db) as [_ [H _]].
    destruct (H _ eq_refl) as [_ [_ Ho]]. apply Ho; simpl; try lia. reflexivity.
Defined.

Lemma cast_vote_any_candidate_witness :
  candidates ballot_db = [] /\
  fst (cast_vote "v1" (fun _ => 5) "e1" "nobody" ballot_db) = Return VoteCast /\
  votes (snd (cast_vote "v1" (fun _ => 5) "e1" "nobody" ballot_db)) =
    [Vote.mk "v1" "e1" "nobody"].
Proof.
  split; [reflexivity|].
  destruct (@cast_vote_any_candidate "v1" (fun _ => 5) "e1" "nobody" ballot_db
              (Election.mk "e1" "General" 0 10 (Some [])))
    as [Hr [Hv _]]; try reflexivity; simpl; try lia.
  split; [exact Hr | exact Hv].
Defined.

(** ** Casting a vote: what is committed *)

(** C1: [cast_vote] never writes to the elections collection.  On a store
    with the open election [e1], whose tally is empty, it accepts the vote of
    [v1] for [c1] and inserts the Vote record, but the tally of [e1] is left
    as it was: it still has no entry for [c1], where the commit described by
    the specification sets it to 1.  Only the first half of that commit
    happens, and [get_results] goes on answering "No votes cast yet." after
    the accepted vote. *)
Lemma cast_vote_partial_commit :
  (forall voter_id now election_id candidate_id d,
     elections (snd (cast_vote voter_id now election_id candidate_id d)) = elections d) /\
  fst (cast_vote "v1" (fun _ => 5) "e1" "c1" ballot_db) = Return VoteCast /\
  votes (snd (cast_vote "v1" (fun _ => 5) "e1" "c1" ballot_db)) = [Vote.mk "v1" "e1" "c1"] /\
  option_map (fun e => dict_get (tally_of e) "c1")
    (lookup_election "e1" (snd (cast_vote "v1" (fun _ => 5) "e1" "c1" ballot_db)))
    = Some None /\
  fst (get_results "e1" (snd (cast_vote "v1" (fun _ => 5) "e1" "c1" ballot_db)))
    = Return NoVotesCast.
Proof. split; [exact cast_vote_elections | repeat split]. Qed.

(** C2: the law holds on the store [ballot_db] and is broken by one accepted
    [cast_vote]: afterwards there is one Vote record for [e1] while the tally
    of [e1], which no route writes, still sums to 0. *)
Lemma conservation_broken_by_cast_vote :
  conservation ballot_db /\
  let d' := snd (cast_vote "v1" (fun _ => 5) "e1" "c1" ballot_db) in
  fst (cast_vote "v1" (fun _ => 5) "e1" "c1" ballot_db) = Return VoteCast /\
  votes_for "e1" d' = 1%nat /\
  option_map (fun e => tally_sum (tally_of e)) (lookup_election "e1" d') = Some 0 /\
  ~ conservation d'.
Proof.
  split; [intros e [<-|[]]; reflexivity|].
  split; [reflexivity|]. split; [reflexivity|]. split; [reflexivity|].
  intros H.
  specialize (H (Election.mk "e1" "General" 0 10 (Some [])) (or_introl eq_refl)).
  discriminate H.
Qed.

(** ** Which routes write to which collection *)

Lemma create_admin_frame d :
  fst (create_admin d) = Return tt /\
  snd (create_admin d) = set_admins (admins (snd (create_admin d))) d.
Proof.
  unfold create_admin. run_handler.
  destruct (find _ (admins d)); simpl; split; try reflexivity.
  destruct d; reflexivity.
Qed.

Lemma handle_after_create_admin s now oid r d :
  handle s now oid r d = dispatch s now oid r (snd (create_admin d)).
Proof.
  unfold handle, bind.
  destruct (create_admin_frame d) as [Hr _].
  destruct (create_admin d) as [[u|e] d']; simpl in *; [reflexivity | discriminate].
Qed.

Lemma register_voter_votes name cnic dob age d :
  votes (snd (register_voter name cnic dob age d)) = votes d.
Proof.
  unfold register_voter. run_handler.
  destruct (find _ (voters d)); simpl; [reflexivity|].
  destruct (age <? 18); [reflexivity|].
  destruct (negb (bson_int age)); reflexivity.
Qed.

Lemma add_candidate_votes oid name party d :
  votes (snd (add_candidate oid name party d)) = votes d.
Proof.
  unfold add_candidate. run_handler.
  destruct (find _ (candidates d)); reflexivity.
Qed.

Lemma create_election_votes oid name sd ed d :
  votes (snd (create_election oid name sd ed d)) = votes d.
Proof.
  unfold create_election. destruct (sd >=? ed); reflexivity.
Qed.

Lemma delete_election_votes election_id d :
  votes (snd (delete_election election_id d)) = votes d.
Proof.
  unfold delete_election. run_handler.
  destruct (existsb _ (elections d)); reflexivity.
Qed.

Lemma get_results_db election_id d : snd (get_results election_id d) = d.
Proof.
  unfold get_results. run_handler.
  destruct (find _ (elections d)) as [el|]; [|reflexivity].
  destruct (Election.votes el) as [[|[k v] t]|]; try reflexivity.
  destruct (py_max _ _); [|reflexivity].
  destruct (find _ (candidates d)); simpl; [|reflexivity].
  destruct (dict_get _ _); reflexivity.
Qed.

Lemma send_notification_votes now rcpt msg d :
  votes (snd (send_notification now rcpt msg d)) = votes d.
Proof.
  unfold send_notification. destruct (_ || _); reflexivity.
Qed.

(** Every request other than an accepted [CastVote] leaves the votes
    collection as it is; a [CastVote] of a logged-in user runs [cast_vote]
    under that user's id. *)
Lemma dispatch_votes s now oid r d :
  votes (snd (dispatch s now oid r d)) = votes d \/
  exists u election_id candidate_id,
    s = Some u /\ r = CastVote election_id candidate_id /\
    dispatch s now oid r d = cast_vote (id u) now election_id candidate_id d.
Proof.
  assert (Hadmin : forall f : Handler view,
             (forall d0, votes (snd (f d0)) = votes d0) ->
             votes (snd (admin_required s f d)) = votes d).
  { intros f Hf. unfold admin_required. destruct s as [u|]; [|reflexivity].
    destruct (negb _); [reflexivity | apply Hf]. }
  assert (Hlogin : forall f : Handler view,
             (forall d0, votes (snd (f d0)) = votes d0) ->
             votes (snd (login_required s f d)) = votes d).
  { intros f Hf. unfold login_required. destruct s as [u|]; [apply Hf | reflexivity]. }
  destruct r; simpl.
  - left. apply Hadmin. intros d0. apply register_voter_votes.
  - left. apply Hadmin. intros d0. apply add_candidate_votes.
  - left. apply Hadmin. intros d0. apply create_election_votes.
  - left. apply Hadmin. intros d0. apply delete_election_votes.
  - left. apply Hlogin. intros d0. rewrite get_results_db. reflexivity.
  - left. apply Hlogin. intros d0. reflexivity.
  - left. apply Hadmin. intros d0. apply send_notification_votes.
  - left. apply Hlogin. intros d0. reflexivity.
  - destruct s as [u|]; [|left; reflexivity].
    right. exists u, election_id, candidate_id. repeat split.
Qed.

Lemma one_vote_per_pair_ext d d' :
  votes d' = votes d -> one_vote_per_pair d -> one_vote_per_pair d'.
Proof.
  intros E H v e. unfold votes_of_pair. rewrite E. apply H.
Qed.

Lemma cast_vote_one_vote_per_pair voter_id now election_id candidate_id d :
  one_vote_per_pair d ->
  one_vote_per_pair (snd (cast_vote voter_id now election_id candidate_id d)).
Proof.
  intros H. rewrite cast_vote_cases.
  destruct (lookup_election election_id d) as [el|]; [|exact H].
  destruct (_ || _); [exact H|].
  destruct (has_voted voter_id election_id d) eqn:Hv; [exact H|].
  intros v e. unfold votes_of_pair. simpl.
  rewrite filter_length_snoc.
  destruct (by_voter_and_election v e (Vote.mk voter_id election_id candidate_id)) eqn:Hq.
  - unfold by_voter_and_election in Hq. simpl in Hq.
    apply andb_true_iff in Hq. destruct Hq as [Hq1 Hq2].
    apply String.eqb_eq in Hq1, Hq2. subst v e.
    apply existsb_filter_length in Hv. rewrite Hv. simpl. lia.
  - specialize (H v e). unfold votes_of_pair in H. lia.
Qed.

Lemma handle_one_vote_per_pair s now oid r d :
  one_vote_per_pair d -> one_vote_per_pair (snd (handle s now oid r d)).
Proof.
  intros H. rewrite handle_after_create_admin.
  assert (H' : one_vote_per_pair (snd (create_admin d))).
  { apply (one_vote_per_pair_ext (d:=d)); [|exact H].
    destruct (create_admin_frame d) as [_ ->]. reflexivity. }
  destruct (dispatch_votes s now oid r (snd (create_admin d)))
    as [E | (u & e & c & _ & _ & E)].
  - exact (one_vote_per_pair_ext _ E H').
  - rewrite E. apply cast_vote_one_vote_per_pair, H'.
Qed.

Lemma reachable_one_vote_per_pair d : reachable d -> one_vote_per_pair d.
Proof.
  induction 1 as [|d s now oid r _ IH].
  - intros v e. unfold votes_of_pair. simpl. lia.
  - apply handle_one_vote_per_pair, IH.
Qed.

(** ** One vote per voter and election *)

(** C3 (as the code has it): every request preserves "at most one Vote
    record per (voter, election) pair", so the invariant holds in every
    reachable store; and a [cast_vote] attempt for a pair that already has a
    Vote record writes nothing and reports a failure, which is AlreadyVoted
    when the election exists and the clock is inside its window (the two
    earlier checks answer first otherwise). *)
Theorem one_vote_per_pair_invariant :
  (forall s now oid r d,
     one_vote_per_pair d -> one_vote_per_pair (snd (handle s now oid r d))) /\
  (forall d, reachable d -> one_vote_per_pair d) /\
  (forall voter_id now election_id candidate_id d,
     has_voted voter_id election_id d = true ->
     snd (cast_vote voter_id now election_id candidate_id d) = d /\
     (exists v, fst (cast_vote voter_id now election_id candidate_id d) = Return v /\
                is_failure v = true) /\
     (forall el, lookup_election election_id d = Some el ->
        Election.start_date el <= now 0%nat -> now 1%nat <= Election.end_date el ->
        fst (cast_vote voter_id now election_id candidate_id d) = Return AlreadyVoted)).
Proof.
  split; [exact handle_one_vote_per_pair|].
  split; [exact reachable_one_vote_per_pair|].
  intros voter_id now election_id candidate_id d Hv.
  rewrite cast_vote_cases.
  destruct (lookup_election election_id d) as [el|].
  - destruct (_ || _) eqn:Hw; simpl.
    + split; [reflexivity|]. split; [eexists; split; reflexivity|].
      intros el' E H0 H1. injection E as <-.
      rewrite (proj2 (window_open_iff now el) (conj H0 H1)) in Hw. discriminate.
    + rewrite Hv. simpl. split; [reflexivity|].
      split; [eexists; split; reflexivity|]. reflexivity.
  - simpl. split; [reflexivity|]. split; [eexists; split; reflexivity|].
    intros el E. discriminate.
Qed.

Lemma one_vote_per_pair_invariant_witness :
  one_vote_per_pair voted_db /\
  one_vote_per_pair
    (snd (handle (voter_session "v1") (fun _ => 5) "n1" (CastVote "e1" "c2") voted_db)) /\
  snd (cast_vote "v1" (fun _ => 5) "e1" "c2" voted_db) = voted_db /\
  fst (cast_vote "v1" (fun _ => 5) "e1" "c2" voted_db) = Return AlreadyVoted.
Proof.
  assert (H0 : one_vote_per_pair voted_db).
  { intros v e. unfold votes_of_pair. simpl.
    destruct (by_voter_and_election v e _); simpl; lia. }
  destruct one_vote_per_pair_invariant as [Hstep [_ Hdup]].
  split; [exact H0|].
  split; [apply Hstep, H0|].
  destruct (Hdup "v1" (fun _ => 5) "e1" "c2" voted_db eq_refl) as [Hs [_ Ha]].
  split; [exact Hs|].
  apply (Ha (Election.mk "e1" "General" 0 10 (Some []))); [reflexivity | simpl; lia ..].
Defined.

(** C3, as stated, fails: voter [v1] already has a Vote record in [e1], the
    window of [e1] closed at tick 10, and the attempt at tick 11 is answered
    VotingClosed, not AlreadyVoted. *)
Lemma duplicate_vote_after_close_is_VotingClosed :
  has_voted "v1" "e1" voted_db = true /\
  fst (cast_vote "v1" (fun _ => 11) "e1" "c2" voted_db) = Return VotingClosed /\
  fst (cast_vote "v1" (fun _ => 11) "e1" "c2" voted_db) <> Return AlreadyVoted.
Proof. repeat split. discriminate. Qed.

(** ** Scheduling an election *)

(** C5: [create_election] answers InvalidSchedule exactly when
    [start_date >= end_date], writing nothing; when [start_date < end_date]
    it succeeds and appends an election document whose tally is empty. *)
Theorem create_election_schedule oid name start_date end_date d :
  (fst (create_election oid name start_date end_date d) = Return InvalidSchedule <->
   start_date >= end_date) /\
  (start_date >= end_date -> snd (create_election oid name start_date end_date d) = d) /\
  (start_date < end_date ->
   fst (create_election oid name start_date end_date d) = Return ElectionCreated /\
   snd (create_election oid name start_date end_date d) =
     set_elections
       (elections d ++ [Election.mk oid name start_date end_date (Some [])]) d /\
   tally_of (Election.mk oid name start_date end_date (Some [])) = []).
Proof.
  unfold create_election.
  destruct (start_date >=? end_date) eqn:E.
  - apply Z.geb_le in E. simpl.
    split; [split; [lia | reflexivity]|]. split; [reflexivity | lia].
  - rewrite Z.geb_leb in E. apply Z.leb_gt in E. simpl.
    split; [split; [discriminate | lia]|]. split; [lia|].
    intros _. repeat split.
Qed.

Lemma create_election_schedule_witness :
  fst (create_election "e2" "Local" 7 7 ballot_db) = Return InvalidSchedule /\
  snd (create_election "e2" "Local" 7 7 ballot_db) = ballot_db /\
  fst (create_election "e2" "Local" 7 8 ballot_db) = Return ElectionCreated /\
  option_map tally_of
    (lookup_election "e2" (snd (create_election "e2" "Local" 7 8 ballot_db))) = Some [].
Proof.
  destruct (create_election_schedule "e2" "Local" 7 7 ballot_db) as [[_ Hi] [Hu _]].
  destruct (create_election_schedule "e2" "Local" 7 8 ballot_db) as [_ [_ Hs]].
  destruct Hs as [Hr [Hd _]]; [lia|].
  split; [apply Hi; lia|]. split; [apply Hu; lia|]. split; [exact Hr|].
  rewrite Hd. reflexivity.
Defined.

(** ** Results: the winner *)

Lemma dict_get_keys (t : tally) (k : Id) :
  In k (keys t) <-> exists v, dict_get t k = Some v.
Proof.
  unfold dict_get, keys.
  induction t as [|[k' v'] t IH]; simpl.
  - split; [tauto | intros [v H]; discriminate].
  - destruct (k' =? k)%string eqn:E; simpl.
    + apply String.eqb_eq in E. split; [eexists; reflexivity | tauto].
    + apply String.eqb_neq in E. rewrite <- IH. tauto.
Qed.

Lemma max_scan_spec (key : Id -> option Z) (rest : list Id) :
  forall best,
    (forall k, In k (best :: rest) -> exists v, key k = Some v) ->
    exists w n,
      max_scan key best rest = Return w /\ In w (best :: rest) /\ key w = Some n /\
      forall k v, In k (best :: rest) -> key k = Some v -> v <= n.
Proof.
  induction rest as [|k rest IH]; intros best Hdef.
  - destruct (Hdef best (or_introl eq_refl)) as [n Hn].
    exists best, n. simpl. repeat split; auto.
    intros k v [<-|[]] Hk. rewrite Hn in Hk. injection Hk as <-. lia.
  - destruct (Hdef best (or_introl eq_refl)) as [vb Hb].
    destruct (Hdef k (or_intror (or_introl eq_refl))) as [vk Hk].
    simpl. rewrite Hk, Hb.
    destruct (vk >? vb) eqn:E; rewrite Z.gtb_ltb in E.
    + apply Z.ltb_lt in E.
      destruct (IH k) as (w & n & Hw & Hin & Hn & Hmax).
      { intros k' [<-|Hk']; [eauto | apply Hdef; simpl; auto]. }
      exists w, n. repeat split; [exact Hw | simpl in *; tauto | exact Hn |].
      intros k' v' [<-|[<-|Hk']] Hv'.
      * rewrite Hb in Hv'. injection Hv' as <-.
        specialize (Hmax k vk (or_introl eq_refl) Hk). lia.
      * apply (Hmax k v'); simpl; auto.
      * apply (Hmax k' v'); simpl; auto.
    + apply Z.ltb_ge in E.
      destruct (IH best) as (w & n & Hw & Hin & Hn & Hmax).
      { intros k' [<-|Hk']; [eauto | apply Hdef; simpl; auto]. }
      exists w, n. repeat split; [exact Hw | simpl in *; tauto | exact Hn |].
      intros k' v' [<-|[<-|Hk']] Hv'.
      * apply (Hmax best v'); simpl; auto.
      * rewrite Hk in Hv'. injection Hv' as <-.
        specialize (Hmax best vb (or_introl eq_refl) Hb). lia.
      * apply (Hmax k' v'); simpl; auto.
Qed.

(** [max(votes, key=votes.get)] on a non-empty tally returns a key whose
    count is the greatest count of the tally. *)
Lemma py_max_votes (t : tally) :
  t <> [] ->
  exists w n,
    py_max (keys t) (dict_get t) = Return w /\ dict_get t w = Some n /\
    forall k v, dict_get t k = Some v -> v <= n.
Proof.
  intros Hne. destruct t as [|[k0 v0] t]; [congruence|].
  destruct (@max_scan_spec (dict_get ((k0, v0) :: t)) (keys t) k0)
    as (w & n & Hw & _ & Hn & Hmax).
  { intros k Hk. apply dict_get_keys. exact Hk. }
  exists w, n. repeat split; [exact Hw | exact Hn |].
  intros k v Hk. apply (Hmax k v); [|exact Hk].
  apply (dict_get_keys ((k0, v0) :: t)). eauto.
Qed.

(** X14: [get_results] answers ElectionNotFound when no election has the id
    and NoVotesCast when the tally is empty; otherwise the winner it
    determines is a candidate id of the tally whose count is the greatest
    count in the tally, and, when that candidate has a record, the report
    carries the whole tally, the winner's id, name and count. *)
Theorem get_results_winner election_id d :
  (lookup_election election_id d = None ->
   get_results election_id d = (Return ElectionNotFound, d)) /\
  (forall el, lookup_election election_id d = Some el -> tally_of el = [] ->
   get_results election_id d = (Return NoVotesCast, d)) /\
  (forall el, lookup_election election_id d = Some el -> tally_of el <> [] ->
   exists w n,
     py_max (keys (tally_of el)) (dict_get (tally_of el)) = Return w /\
     dict_get (tally_of el) w = Some n /\
     (forall k v, dict_get (tally_of el) k = Some v -> v <= n) /\
     forall c, lookup_candidate w d = Some c ->
       get_results election_id d =
       (Return (format_response true "Results retrieved successfully."
                  (Some (ResultsData (tally_of el) w (Candidate.name c) n))), d)).
Proof.
  unfold get_results, lookup_election, lookup_candidate, by_election_id.
  run_handler.
  split; [intros ->; reflexivity|].
  split.
  - intros el -> Ht. unfold tally_of in Ht. rewrite Ht. reflexivity.
  - intros el -> Ht.
    destruct (py_max_votes Ht) as (w & n & Hw & Hn & Hmax).
    exists w, n. repeat split; [exact Hw | exact Hn | exact Hmax |].
    intros c Hc. unfold tally_of in *.
    destruct (Election.votes el) as [[|kv t]|]; try congruence.
    rewrite Hw. simpl. rewrite Hc. simpl. rewrite Hn. reflexivity.
Qed.

Lemma get_results_winner_witness :
  get_results "e0" counted_db = (Return ElectionNotFound, counted_db) /\
  get_results "e1" ballot_db = (Return NoVotesCast, ballot_db) /\
  get_results "e1" counted_db =
    (Return (format_response true "Results retrieved successfully."
               (Some (ResultsData [("c2", 1); ("c1", 4); ("c3", 4)] "c1" "Ann" 4))),
     counted_db).
Proof.
  destruct (get_results_winner "e0" counted_db) as [Hnf _].
  destruct (get_results_winner "e1" ballot_db) as [_ [Hnv _]].
  destruct (get_results_winner "e1" counted_db) as [_ [_ Hw]].
  split; [apply Hnf; reflexivity|].
  split; [apply (Hnv _ eq_refl); reflexivity|].
  destruct (Hw _ eq_refl) as (w & n & Hmax & Hn & _ & Hrep); [discriminate|].
  injection Hmax as <-. injection Hn as <-.
  apply (Hrep (Candidate.mk "c1" "Ann" "Blue")). reflexivity.
Defined.

(** C6: the election [e1] exists and its tally is not empty; the winner is
    [c9], with the greatest count, 1.  [get_results] returns neither the
    winner with the tally nor any other answer: [c9] has no Candidate record
    and reading its name raises TypeError. *)
Lemma get_results_without_candidate_returns_nothing :
  option_map tally_of (lookup_election "e1" no_candidates_db) = Some [("c9", 1)] /\
  py_max (keys [("c9", 1)]) (dict_get [("c9", 1)]) = Return "c9" /\
  lookup_candidate "c9" no_candidates_db = None /\
  get_results "e1" no_candidates_db = (Raise TypeError, no_candidates_db) /\
  forall v, fst (get_results "e1" no_candidates_db) <> Return v.
Proof. repeat split. discriminate. Qed.

(** C7: the winner of [e1] is [c2] (3 votes against 2), and [c2] has no
    Candidate record.  [get_results] does not answer WinnerCandidateMissing:
    it answers nothing, [winner['name']] raises TypeError on [None]. *)
Lemma get_results_missing_winner_raises :
  py_max (keys [("c1", 2); ("c2", 3)]) (dict_get [("c1", 2); ("c2", 3)]) = Return "c2" /\
  lookup_candidate "c2" orphan_winner_db = None /\
  get_results "e1" orphan_winner_db = (Raise TypeError, orphan_winner_db).
Proof. repeat split. Qed.

(** ** Registering a voter *)

(** C8 (as the code has it): with [age < 18] the registration always fails
    and writes nothing; the answer is Underage when the CNIC is not yet
    registered, and DuplicateCnic, the check made first, when it is.  Any
    failed registration leaves the whole store, hence the voter registry,
    unchanged. *)
Theorem register_voter_underage name cnic dob age d :
  (age < 18 ->
   snd (register_voter name cnic dob age d) = d /\
   (cnic_registered cnic d = false ->
    fst (register_voter name cnic dob age d) = Return Underage) /\
   (cnic_registered cnic d = true ->
    fst (register_voter name cnic dob age d) = Return DuplicateCnic)) /\
  (forall v, fst (register_voter name cnic dob age d) = Return v ->
             is_failure v = true ->
             snd (register_voter name cnic dob age d) = d).
Proof.
  unfold register_voter, cnic_registered. run_handler.
  rewrite find_truthy_existsb.
  destruct (existsb _ (voters d)); simpl.
  - split; [intros _; repeat split; discriminate | reflexivity].
  - destruct (age <? 18) eqn:E; simpl.
    + split; [intros _; repeat split; discriminate | reflexivity].
    + apply Z.ltb_ge in E.
      split; [lia|].
      destruct (negb (bson_int age)); simpl; intros v Hv Hf; [discriminate Hv|].
      injection Hv as <-. discriminate.
Qed.

Lemma register_voter_underage_witness :
  fst (register_voter "Bob" "61101" "2008-05-05" 16 registry_db) = Return Underage /\
  voters (snd (register_voter "Bob" "61101" "2008-05-05" 16 registry_db)) =
    voters registry_db.
Proof.
  destruct (register_voter_underage "Bob" "61101" "2008-05-05" 16 registry_db)
    as [H _].
  destruct H as [Hs [Hu _]]; [lia|].
  split; [apply Hu; reflexivity | rewrite Hs; reflexivity].
Defined.

(** C8, as stated, fails: a 16-year-old whose CNIC is already registered is
    answered "Voter already registered.", not Underage. *)
Lemma underage_duplicate_cnic_is_DuplicateCnic :
  16 < 18 /\
  fst (register_voter "Bob" "35202" "2008-05-05" 16 registry_db) = Return DuplicateCnic /\
  fst (register_voter "Bob" "35202" "2008-05-05" 16 registry_db) <> Return Underage.
Proof. repeat split. discriminate. Qed.

(** ** Deleting an election *)

Lemma remove_first_find {D} (q : D -> bool) (l : list D) :
  match find q l with
  | None => remove_first q l = l
  | Some x =>
      q x = true /\
      exists l1 l2,
        l = (l1 ++ x :: l2)%list /\ remove_first q l = (l1 ++ l2)%list /\
        forallb (fun y => negb (q y)) l1 = true
  end.
Proof.
  induction l as [|y l IH]; simpl; [reflexivity|].
  destruct (q y) eqn:E.
  - split; [exact E|]. exists [], l. repeat split.
  - destruct (find q l) as [x|].
    + destruct IH as (Hx & l1 & l2 & -> & -> & Hl1). split; [exact Hx|].
      exists (y :: l1), l2. repeat split. simpl. rewrite E. exact Hl1.
    + rewrite IH. reflexivity.
Qed.

(** C10: [delete_election] writes to the [elections] collection only: the
    votes (those of the deleted election included), voters, candidates,
    admins and notifications are what they were, whether or not an election
    had the id.  Of the elections, exactly the first document with that id is
    taken out; when there is none the store is unchanged. *)
Theorem delete_election_frame election_id d :
  votes (snd (delete_election election_id d)) = votes d /\
  votes_for election_id (snd (delete_election election_id d)) = votes_for election_id d /\
  admins (snd (delete_election election_id d)) = admins d /\
  voters (snd (delete_election election_id d)) = voters d /\
  candidates (snd (delete_election election_id d)) = candidates d /\
  notifications (snd (delete_election election_id d)) = notifications d /\
  match lookup_election election_id d with
  | None =>
      delete_election election_id d = (Return ElectionNotFound, d)
  | Some el =>
      fst (delete_election election_id d) = Return ElectionDeleted /\
      Election._id el = election_id /\
      exists l1 l2,
        elections d = (l1 ++ el :: l2)%list /\
        elections (snd (delete_election election_id d)) = (l1 ++ l2)%list /\
        forallb (fun e => negb (by_election_id election_id e)) l1 = true
  end.
Proof.
  unfold delete_election, lookup_election, votes_for. run_handler.
  fold (by_election_id election_id).
  rewrite <- find_truthy_existsb.
  pose proof (remove_first_find (by_election_id election_id) (elections d)) as Hrm.
  destruct (find (by_election_id election_id) (elections d)) as [el|]; simpl.
  - destruct Hrm as [Hq Hrm]. apply String.eqb_eq in Hq.
    repeat split; [exact Hq | exact Hrm].
  - repeat split. rewrite Hrm. destruct d; reflexivity.
Qed.

(** ** The routes, read as decision lists *)

Lemma register_voter_cases name cnic dob age d :
  register_voter name cnic dob age d =
  if cnic_registered cnic d then (Return DuplicateCnic, d)
  else if age <? 18 then (Return Underage, d)
  else if negb (bson_int age) then (Raise OverflowError, d)
  else (Return VoterRegistered,
        set_voters (voters d ++ [Voter.mk name cnic dob age false None]) d).
Proof.
  unfold register_voter, cnic_registered. run_handler.
  rewrite find_truthy_existsb.
  destruct (existsb _ (voters d)); simpl; [reflexivity|].
  destruct (age <? 18); [reflexivity|].
  destruct (negb (bson_int age)); reflexivity.
Qed.

Lemma add_candidate_cases oid name party d :
  add_candidate oid name party d =
  if candidate_exists name party d
  then (Return (format_response false "Candidate already exists." None), d)
  else (Return (format_response true "Candidate added successfully." None),
        set_candidates (candidates d ++ [Candidate.mk oid name party]) d).
Proof.
  unfold add_candidate, candidate_exists. run_handler.
  rewrite find_truthy_existsb.
  destruct (existsb _ (candidates d)); reflexivity.
Qed.

Lemma send_notification_cases now recipient_id message d :
  send_notification now recipient_id message d =
  if falsy recipient_id || falsy message
  then (Return (format_response false "Recipient ID and message are required." None), d)
  else (Return (format_response true "Notification sent successfully." None),
        set_notifications
          (notifications d ++ [Notification.mk recipient_id message (now 0%nat)]) d).
Proof.
  unfold send_notification. destruct (_ || _); reflexivity.
Qed.

Lemma get_notifications_cases recipient_id d :
  get_notifications recipient_id d =
  (Return (format_response true "Notifications retrieved successfully."
             (Some (NotificationList (notifications_of recipient_id d)))), d).
Proof. reflexivity. Qed.

Lemma route_write_register_voter name cnic dob age d :
  route_write d (snd (register_voter name cnic dob age d)).
Proof.
  rewrite register_voter_cases.
  destruct (cnic_registered cnic d) eqn:E; [constructor|].
  destruct (age <? 18) eqn:A; [constructor|].
  destruct (negb (bson_int age)); [constructor|].
  apply Z.ltb_ge in A. simpl. constructor; assumption.
Qed.

Lemma route_write_add_candidate oid name party d :
  route_write d (snd (add_candidate oid name party d)).
Proof.
  rewrite add_candidate_cases.
  destruct (candidate_exists name party d) eqn:E; constructor. exact E.
Qed.

Lemma route_write_create_election oid name sd ed d :
  route_write d (snd (create_election oid name sd ed d)).
Proof.
  unfold create_election.
  destruct (sd >=? ed) eqn:E; [constructor|].
  rewrite Z.geb_leb in E. apply Z.leb_gt in E. simpl.
  apply (@write_election d oid name sd ed E).
Qed.

Lemma route_write_delete_election election_id d :
  route_write d (snd (delete_election election_id d)).
Proof.
  unfold delete_election. run_handler.
  destruct (existsb _ (elections d)); simpl; apply write_delete.
Qed.

Lemma route_write_send_notification now recipient_id message d :
  route_write d (snd (send_notification now recipient_id message d)).
Proof.
  rewrite send_notification_cases.
  destruct (falsy recipient_id || falsy message) eqn:E; [constructor|].
  apply orb_false_iff in E. destruct E as [E1 E2].
  unfold falsy in *. apply String.eqb_neq in E1, E2.
  simpl. constructor; assumption.
Qed.

Lemma route_write_cast_vote voter_id now election_id candidate_id d :
  route_write d (snd (cast_vote voter_id now election_id candidate_id d)).
Proof.
  rewrite cast_vote_cases.
  destruct (lookup_election election_id d) as [el|] eqn:Hel; [|constructor].
  destruct (_ || _) eqn:Hw; [constructor|].
  destruct (has_voted voter_id election_id d) eqn:Hv; [constructor|].
  apply window_open_iff in Hw. destruct Hw as [H0 H1].
  simpl. apply (@write_vote d voter_id now election_id candidate_id el Hel H0 H1 Hv).
Qed.

Lemma route_write_admin_required s (f : Handler view) d :
  (forall d0, route_write d0 (snd (f d0))) ->
  route_write d (snd (admin_required s f d)).
Proof.
  intros Hf. unfold admin_required.
  destruct s as [u|]; [|constructor].
  destruct (negb _); [constructor | apply Hf].
Qed.

Lemma route_write_login_required s (f : Handler view) d :
  (forall d0, route_write d0 (snd (f d0))) ->
  route_write d (snd (login_required s f d)).
Proof.
  intros Hf. unfold login_required.
  destruct s as [u|]; [apply Hf | constructor].
Qed.

(** Whatever the session, the clock and the request, a route makes at most
    one of the writes of [route_write]. *)
Lemma route_write_dispatch s now oid r d :
  route_write d (snd (dispatch s now oid r d)).
Proof.
  destruct r; simpl.
  - apply route_write_admin_required. intros. apply route_write_register_voter.
  - apply route_write_admin_required. intros. apply route_write_add_candidate.
  - apply route_write_admin_required. intros. apply route_write_create_election.
  - apply route_write_admin_required. intros. apply route_write_delete_election.
  - apply route_write_login_required. intros. rewrite get_results_db. constructor.
  - apply route_write_login_required. intros. constructor.
  - apply route_write_admin_required. intros. apply route_write_send_notification.
  - apply route_write_login_required. intros. constructor.
  - destruct s as [u|]; [|constructor]. apply route_write_cast_vote.
Qed.

Lemma create_admin_cases d :
  create_admin d =
  (Return tt, if has_bootstrap_admin d then d
              else set_admins (admins d ++ [bootstrap_admin]) d).
Proof.
  unfold create_admin, has_bootstrap_admin. run_handler.
  rewrite <- find_truthy_existsb.
  destruct (find _ (admins d)); reflexivity.
Qed.

Lemma create_admin_seeds d : has_bootstrap_admin (snd (create_admin d)) = true.
Proof.
  rewrite create_admin_cases. simpl.
  destruct (has_bootstrap_admin d) eqn:E; [exact E|].
  unfold has_bootstrap_admin. simpl. rewrite existsb_app. simpl. apply orb_true_r.
Qed.

Lemma route_write_admins d d' : route_write d d' -> admins d' = admins d.
Proof. destruct 1; reflexivity. Qed.

(** ** The bootstrap administrator *)

(** X1: [create_admin] always returns, leaves a store that holds an admin
    with CNIC "admin_cnic", and is idempotent: run on its own result, or on
    any store that already holds such an admin, it writes nothing. *)
Theorem create_admin_idempotent d :
  fst (create_admin d) = Return tt /\
  has_bootstrap_admin (snd (create_admin d)) = true /\
  create_admin (snd (create_admin d)) = (Return tt, snd (create_admin d)) /\
  (has_bootstrap_admin d = true -> snd (create_admin d) = d) /\
  (has_bootstrap_admin d = false ->
   snd (create_admin d) = set_admins (admins d ++ [bootstrap_admin]) d).
Proof.
  split; [rewrite create_admin_cases; reflexivity|].
  split; [apply create_admin_seeds|].
  split.
  - rewrite (create_admin_cases (snd (create_admin d))), create_admin_seeds. reflexivity.
  - rewrite create_admin_cases. simpl. split; intros ->; reflexivity.
Qed.

Lemma create_admin_idempotent_witness :
  snd (create_admin seeded_db) = seeded_db /\
  snd (create_admin empty_db) = seeded_db.
Proof.
  destruct (create_admin_idempotent seeded_db) as (_ & _ & _ & Hk & _).
  destruct (create_admin_idempotent empty_db) as (_ & _ & _ & _ & Hn).
  split; [apply Hk; reflexivity | rewrite Hn; reflexivity].
Defined.

Lemma handle_admins s now oid r d :
  admins (snd (handle s now oid r d)) = admins (snd (create_admin d)).
Proof.
  rewrite handle_after_create_admin.
  apply route_write_admins, route_write_dispatch.
Qed.

(** X2: no route writes to the admins collection and the hook inserts the
    bootstrap admin only when it is missing: a store reached from the empty
    one holds no admin (before the first request) or exactly the bootstrap
    admin, and after any request it holds exactly that one. *)
Theorem single_bootstrap_admin d :
  reachable d ->
  (admins d = [] \/ admins d = [bootstrap_admin]) /\
  forall s now oid r, admins (snd (handle s now oid r d)) = [bootstrap_admin].
Proof.
  intros H.
  assert (Hd : admins d = [] \/ admins d = [bootstrap_admin]).
  { induction H as [|d s now oid r _ IH]; [left; reflexivity|].
    right. rewrite handle_admins, create_admin_cases. unfold has_bootstrap_admin.
    destruct IH as [E | E]; rewrite E; simpl; [reflexivity | exact E]. }
  split; [exact Hd|].
  intros s now oid r. rewrite handle_admins, create_admin_cases.
  unfold has_bootstrap_admin.
  destruct Hd as [E | E]; rewrite E; simpl; [reflexivity | exact E].
Qed.

Lemma single_bootstrap_admin_witness :
  admins (snd (handle None (fun _ => 0) "o1" AvailableElections empty_db))
  = [bootstrap_admin].
Proof.
  destruct (@single_bootstrap_admin empty_db reach_empty) as [_ H].
  apply H.
Defined.

(** ** Access control *)



(** ** Nothing but elections is ever removed *)

Lemma route_write_appends d d' :
  route_write d d' ->
  admins d' = admins d /\
  (exists l, voters d' = (voters d ++ l)%list /\ (List.length l <= 1)%nat) /\
  (exists l, candidates d' = (candidates d ++ l)%list /\ (List.length l <= 1)%nat) /\
  (exists l, votes d' = (votes d ++ l)%list /\ (List.length l <= 1)%nat) /\
  (exists l, notifications d' = (notifications d ++ l)%list /\ (List.length l <= 1)%nat).
Proof.
  assert (Hnil : forall (A : Type) (l : list A),
             exists l0, l = (l ++ l0)%list /\ (List.length l0 <= 1)%nat).
  { intros A l. exists []. rewrite app_nil_r. split; [reflexivity | simpl; lia]. }
  assert (Hone : forall (A : Type) (l : list A) (x : A),
             exists l0, (l ++ [x])%list = (l ++ l0)%list /\ (List.length l0 <= 1)%nat).
  { intros A l x. exists [x]. split; [reflexivity | simpl; lia]. }
  destruct 1; simpl; repeat split; auto.
Qed.

(** X4: no request removes or rewrites a document outside the elections
    collection: after any request the admins, voters, candidates, votes and
    notifications are the former ones, in order, followed by at most one new
    document each. *)
Theorem handle_only_appends s now oid r d :
  (exists l, admins (snd (handle s now oid r d)) = (admins d ++ l)%list /\
             (List.length l <= 1)%nat) /\
  (exists l, voters (snd (handle s now oid r d)) = (voters d ++ l)%list /\
             (List.length l <= 1)%nat) /\
  (exists l, candidates (snd (handle s now oid r d)) = (candidates d ++ l)%list /\
             (List.length l <= 1)%nat) /\
  (exists l, votes (snd (handle s now oid r d)) = (votes d ++ l)%list /\
             (List.length l <= 1)%nat) /\
  (exists l, notifications (snd (handle s now oid r d)) = (notifications d ++ l)%list /\
             (List.length l <= 1)%nat).
Proof.
  rewrite handle_after_create_admin.
  destruct (route_write_appends (route_write_dispatch s now oid r (snd (create_admin d))))
    as (Ha & Hv & Hc & Ht & Hn).
  rewrite Ha. clear Ha.
  rewrite create_admin_cases in *. simpl in *.
  destruct (has_bootstrap_admin d); simpl in *.
  - split; [exists []; rewrite app_nil_r; split; [reflexivity | simpl; lia]|].
    repeat split; assumption.
  - split; [exists [bootstrap_admin]; split; [reflexivity | simpl; lia]|].
    repeat split; assumption.
Qed.

(** ** Invariants of the routes *)

Lemma route_write_handle s now oid r d :
  route_write (snd (create_admin d)) (snd (handle s now oid r d)).
Proof. rewrite handle_after_create_admin. apply route_write_dispatch. Qed.

(** A property of the store that the admins collection does not affect and
    that every write of a route keeps is kept by every request, and holds in
    every store reached from the empty one if it holds there. *)
Lemma invariant_by_route_write (P : mongo_db -> Prop) :
  (forall l d, P d -> P (set_admins l d)) ->
  (forall d d', route_write d d' -> P d -> P d') ->
  (forall s now oid r d, P d -> P (snd (handle s now oid r d))) /\
  (P empty_db -> forall d, reachable d -> P d).
Proof.
  intros Hadm Hwr.
  assert (Hstep : forall s now oid r d, P d -> P (snd (handle s now oid r d))).
  { intros s now oid r d H.
    apply (Hwr _ _ (route_write_handle s now oid r d)).
    rewrite create_admin_cases. simpl.
    destruct (has_bootstrap_admin d); [exact H | apply Hadm, H]. }
  split; [exact Hstep|].
  intros H0 d Hd. induction Hd as [|d s now oid r _ IH]; [exact H0 | apply Hstep, IH].
Qed.

Lemma NoDup_snoc {A} (l : list A) (x : A) : NoDup l -> ~ In x l -> NoDup (l ++ [x]).
Proof.
  induction l as [|y l IH]; simpl; intros Hl Hx.
  - constructor; [tauto | constructor].
  - inversion Hl as [|? ? Hy Hl']; subst. constructor.
    + rewrite in_app_iff. simpl. intros [H|[H|[]]]; [tauto | subst; tauto].
    + apply IH; tauto.
Qed.

Lemma cnic_registered_In cnic d :
  cnic_registered cnic d = false -> ~ In cnic (map Voter.cnic (voters d)).
Proof.
  unfold cnic_registered. intros H Hin.
  apply in_map_iff in Hin. destruct Hin as (v & <- & Hv).
  assert (E : existsb (fun v0 => (Voter.cnic v0 =? Voter.cnic v)%string) (voters d) = true).
  { apply existsb_exists. exists v. split; [exact Hv | apply String.eqb_refl]. }
  congruence.
Qed.

Lemma candidate_exists_In name party d :
  candidate_exists name party d = false ->
  ~ In (name, party) (map (fun c => (Candidate.name c, Candidate.party c)) (candidates d)).
Proof.
  unfold candidate_exists. intros H Hin.
  apply in_map_iff in Hin. destruct Hin as (c & E & Hc).
  injection E as <- <-.
  assert (E : existsb (fun c0 => (Candidate.name c0 =? Candidate.name c)%string
                                 && (Candidate.party c0 =? Candidate.party c)%string)
                (candidates d) = true).
  { apply existsb_exists. exists c. split; [exact Hc|].
    rewrite !String.eqb_refl. reflexivity. }
  congruence.
Qed.

(** ** The voter registry *)

(** X5: no two voters share a CNIC: every request keeps the CNICs of the
    registry pairwise different, so they are in every store reached from the
    empty one. *)
Theorem unique_cnic_invariant :
  (forall s now oid r d, unique_cnic d -> unique_cnic (snd (handle s now oid r d))) /\
  (forall d, reachable d -> unique_cnic d).
Proof.
  destruct (@invariant_by_route_write unique_cnic) as [Hstep Hreach].
  - intros l d H. exact H.
  - intros d d' Hw H. unfold unique_cnic in *.
    destruct Hw; simpl; try exact H.
    rewrite map_app. simpl. apply NoDup_snoc; [exact H|].
    apply cnic_registered_In. assumption.
  - split; [exact Hstep | apply Hreach; constructor].
Qed.

Lemma unique_cnic_invariant_witness :
  unique_cnic
    (snd (handle admin_session (fun _ => 0) "o1"
            (RegisterVoter "Bob" "61101" "1990-05-05" 30) registry_db)).
Proof.
  destruct unique_cnic_invariant as [H _]. apply H.
  unfold unique_cnic. simpl. constructor; [simpl; tauto | constructor].
Defined.

(** X6: the registry only ever holds adults whose [voted] flag is false: a
    voter is inserted with age at least 18 and [voted = False], and no route,
    [cast_vote] included, updates a voter document. *)
Theorem voters_adult_and_never_marked d :
  reachable d ->
  Forall (fun v => 18 <= Voter.age v /\ Voter.voted v = false) (voters d).
Proof.
  revert d.
  apply (@invariant_by_route_write
           (fun d => Forall (fun v => 18 <= Voter.age v /\ Voter.voted v = false) (voters d))).
  - intros l d H. exact H.
  - intros d d' Hw H. destruct Hw; simpl; try exact H.
    apply Forall_app. split; [exact H|]. constructor; [|constructor].
    simpl. split; [assumption | reflexivity].
  - constructor.
Qed.

Lemma voters_adult_and_never_marked_witness :
  Forall (fun v => 18 <= Voter.age v /\ Voter.voted v = false)
    (voters (snd (handle admin_session (fun _ => 0) "o1"
                    (RegisterVoter "Bob" "61101" "1990-05-05" 30) empty_db))).
Proof.
  apply voters_adult_and_never_marked. apply reach_step, reach_empty.
Defined.

(** X7: an applicant whose CNIC is not registered and whose age is at least
    18 and fits a BSON integer (below 2^63) is accepted and appended to the
    registry with [voted = False] and no [voter_id], the other collections
    staying as they are; from then on every registration with that CNIC,
    whatever the name, date of birth and age, is answered
    "Voter already registered." and writes nothing. *)
Theorem register_voter_then_duplicate name cnic dob age d :
  cnic_registered cnic d = false -> 18 <= age -> age < 2 ^ 63 ->
  register_voter name cnic dob age d =
    (Return VoterRegistered,
     set_voters (voters d ++ [Voter.mk name cnic dob age false None]) d) /\
  forall name' dob' age',
    register_voter name' cnic dob' age' (snd (register_voter name cnic dob age d)) =
    (Return DuplicateCnic, snd (register_voter name cnic dob age d)).
Proof.
  intros Hc Ha Hb.
  assert (E : register_voter name cnic dob age d =
              (Return VoterRegistered,
               set_voters (voters d ++ [Voter.mk name cnic dob age false None]) d)).
  { rewrite register_voter_cases, Hc.
    assert (Hi : bson_int age = true).
    { unfold bson_int. apply andb_true_iff. split; [apply Z.leb_le | apply Z.ltb_lt]; lia. }
    apply Z.ltb_ge in Ha. rewrite Ha, Hi. reflexivity. }
  split; [exact E|].
  intros name' dob' age'. rewrite E. simpl.
  rewrite register_voter_cases.
  assert (H : cnic_registered cnic
                (set_voters (voters d ++ [Voter.mk name cnic dob age false None]) d) = true).
  { unfold cnic_registered. simpl. rewrite existsb_app. simpl.
    rewrite String.eqb_refl. apply orb_true_r. }
  rewrite H. reflexivity.
Qed.

Lemma register_voter_then_duplicate_witness :
  fst (register_voter "Bob" "61101" "1990-05-05" 18 registry_db) = Return VoterRegistered /\
  fst (register_voter "Rob" "61101" "1980-01-01" 44
         (snd (register_voter "Bob" "61101" "1990-05-05" 18 registry_db)))
    = Return DuplicateCnic.
Proof.
  destruct (@register_voter_then_duplicate "Bob" "61101" "1990-05-05" 18 registry_db)
    as [H1 H2]; [reflexivity | lia | lia |].
  split; [rewrite H1; reflexivity | rewrite H2; reflexivity].
Defined.

(** X21: an age that does not fit 8 bytes is not answered at all.  For an
    applicant whose CNIC is not registered and whose age is 2^63 or more, the
    age check passes and [insert_one] raises OverflowError: the request ends
    in an uncaught exception and nothing is stored. *)
Theorem register_voter_age_overflow name cnic dob age d :
  cnic_registered cnic d = false -> 2 ^ 63 <= age ->
  register_voter name cnic dob age d = (Raise OverflowError, d).
Proof.
  intros Hc Ha. rewrite register_voter_cases, Hc.
  assert (H18 : (age <? 18) = false) by (apply Z.ltb_ge; lia).
  assert (Hi : bson_int age = false).
  { unfold bson_int. apply andb_false_iff. right. apply Z.ltb_ge. exact Ha. }
  rewrite H18, Hi. reflexivity.
Qed.

Lemma register_voter_age_overflow_witness :
  register_voter "Bob" "61101" "1990-05-05" 9223372036854775808 registry_db
    = (Raise OverflowError, registry_db).
Proof.
  apply register_voter_age_overflow; [reflexivity | lia].
Defined.

(** ** The candidate registry *)

(** X8: no two candidates share both name and party: every request keeps
    the (name, party) pairs pairwise different, so they are in every store
    reached from the empty one. *)
Theorem unique_candidates_invariant :
  (forall s now oid r d,
     unique_candidates d -> unique_candidates (snd (handle s now oid r d))) /\
  (forall d, reachable d -> unique_candidates d).
Proof.
  destruct (@invariant_by_route_write unique_candidates) as [Hstep Hreach].
  - intros l d H. exact H.
  - intros d d' Hw H. unfold unique_candidates in *.
    destruct Hw; simpl; try exact H.
    rewrite map_app. simpl. apply NoDup_snoc; [exact H|].
    apply candidate_exists_In. assumption.
  - split; [exact Hstep | apply Hreach; constructor].
Qed.

Lemma unique_candidates_invariant_witness :
  unique_candidates
    (snd (handle admin_session (fun _ => 0) "c4" (AddCandidate "Ann" "Red") counted_db)).
Proof.
  destruct unique_candidates_invariant as [H _]. apply H.
  unfold unique_candidates. simpl.
  repeat (constructor; [simpl; intuition discriminate|]). constructor.
Defined.

(** X9: [add_candidate] accepts a (name, party) pair that no candidate has
    and appends the candidate; a second call with the same pair is answered
    "Candidate already exists." and writes nothing.  A candidate with the
    same name and another party, or the same party and another name, is not
    a duplicate. *)
Theorem add_candidate_then_duplicate oid name party d :
  candidate_exists name party d = false ->
  add_candidate oid name party d =
    (Return (format_response true "Candidate added successfully." None),
     set_candidates (candidates d ++ [Candidate.mk oid name party]) d) /\
  (forall oid',
     add_candidate oid' name party (snd (add_candidate oid name party d)) =
     (Return (format_response false "Candidate already exists." None),
      snd (add_candidate oid name party d))) /\
  (forall name' party',
     (name' <> name \/ party' <> party) ->
     candidate_exists name' party' (snd (add_candidate oid name party d)) =
     candidate_exists name' party' d).
Proof.
  intros Hc.
  assert (E : add_candidate oid name party d =
              (Return (format_response true "Candidate added successfully." None),
               set_candidates (candidates d ++ [Candidate.mk oid name party]) d)).
  { rewrite add_candidate_cases, Hc. reflexivity. }
  split; [exact E|]. rewrite E. simpl. split.
  - intros oid'. rewrite add_candidate_cases.
    assert (H : candidate_exists name party
                  (set_candidates (candidates d ++ [Candidate.mk oid name party]) d) = true).
    { unfold candidate_exists. simpl. rewrite existsb_app. simpl.
      rewrite !String.eqb_refl. apply orb_true_r. }
    rewrite H. reflexivity.
  - intros name' party' Hne. unfold candidate_exists. simpl.
    rewrite existsb_app. simpl.
    assert (H : (name =? name')%string && (party =? party')%string = false).
    { apply andb_false_iff.
      destruct Hne as [Hn|Hp]; [left | right]; apply String.eqb_neq; congruence. }
    rewrite H. rewrite !orb_false_r. reflexivity.
Qed.

Lemma add_candidate_then_duplicate_witness :
  fst (add_candidate "c4" "Ann" "Red" counted_db)
    = Return (format_response true "Candidate added successfully." None) /\
  fst (add_candidate "c5" "Ann" "Red" (snd (add_candidate "c4" "Ann" "Red" counted_db)))
    = Return (format_response false "Candidate already exists." None).
Proof.
  destruct (@add_candidate_then_duplicate "c4" "Ann" "Red" counted_db) as (H1 & H2 & _);
    [reflexivity|].
  split; [rewrite H1; reflexivity | rewrite H2; reflexivity].
Defined.

(** ** Votes *)

Lemma has_voted_after_commit voter_id now election_id candidate_id d :
  has_voted voter_id election_id (vote_committed voter_id now election_id candidate_id d)
  = true.
Proof.
  unfold has_voted. simpl. rewrite existsb_app. simpl.
  unfold by_voter_and_election at 2. simpl.
  rewrite !String.eqb_refl. apply orb_true_r.
Qed.

Lemma create_admin_other_collections d :
  voters (snd (create_admin d)) = voters d /\
  candidates (snd (create_admin d)) = candidates d /\
  elections (snd (create_admin d)) = elections d /\
  votes (snd (create_admin d)) = votes d /\
  notifications (snd (create_admin d)) = notifications d.
Proof.
  rewrite create_admin_cases. simpl.
  destruct (has_bootstrap_admin d); repeat split.
Qed.

(** X10: once a vote of a voter in an election has been accepted, every
    later attempt of that voter in that election, for whatever candidate and
    at whatever time, is refused and writes nothing; inside the window the
    answer is "You have already voted in this election.".  The voter then
    has exactly one Vote record in the election. *)
Theorem second_vote_is_refused voter_id now election_id candidate_id d el :
  lookup_election election_id d = Some el ->
  Election.start_date el <= now 0%nat -> now 1%nat <= Election.end_date el ->
  has_voted voter_id election_id d = false ->
  let d1 := snd (cast_vote voter_id now election_id candidate_id d) in
  votes_of_pair voter_id election_id d1 = 1%nat /\
  forall now' candidate_id',
    snd (cast_vote voter_id now' election_id candidate_id' d1) = d1 /\
    fst (cast_vote voter_id now' election_id candidate_id' d1) <> Return VoteCast /\
    (Election.start_date el <= now' 0%nat -> now' 1%nat <= Election.end_date el ->
     fst (cast_vote voter_id now' election_id candidate_id' d1) = Return AlreadyVoted).
Proof.
  intros Hel H0 H1 Hv d1.
  assert (E : d1 = vote_committed voter_id now election_id candidate_id d).
  { unfold d1. rewrite cast_vote_cases, Hel.
    rewrite (proj2 (window_open_iff now el) (conj H0 H1)), Hv. reflexivity. }
  split.
  - rewrite E. unfold votes_of_pair. simpl. rewrite filter_length_snoc.
    apply existsb_filter_length in Hv. rewrite Hv.
    unfold by_voter_and_election. simpl. rewrite !String.eqb_refl. reflexivity.
  - intros now' candidate_id'. rewrite cast_vote_cases.
    assert (Hel1 : lookup_election election_id d1 = Some el) by (rewrite E; exact Hel).
    assert (Hv1 : has_voted voter_id election_id d1 = true)
      by (rewrite E; apply has_voted_after_commit).
    rewrite Hel1, Hv1.
    destruct (_ || _) eqn:Hw; simpl.
    + split; [reflexivity|]. split; [discriminate|].
      intros A B. rewrite (proj2 (window_open_iff now' el) (conj A B)) in Hw. discriminate.
    + split; [reflexivity|]. split; [discriminate | reflexivity].
Qed.

Lemma second_vote_is_refused_witness :
  fst (cast_vote "v1" (fun _ => 9) "e1" "c2"
         (snd (cast_vote "v1" (fun _ => 5) "e1" "c1" ballot_db))) = Return AlreadyVoted.
Proof.
  destruct (@second_vote_is_refused "v1" (fun _ => 5) "e1" "c1" ballot_db
              (Election.mk "e1" "General" 0 10 (Some [])))
    as [_ H]; [reflexivity | simpl; lia | simpl; lia | reflexivity |].
  destruct (H (fun _ => 9) "c2") as (_ & _ & Ha). apply Ha; simpl; lia.
Defined.

(** X11: [cast_vote] checks neither the role of the session's user nor that
    its id belongs to a registered voter: for any logged-in user, an
    administrator included, a first vote in an existing election inside its
    window is accepted and recorded under the session's user id. *)
Theorem any_logged_in_user_can_vote u now oid election_id candidate_id d el :
  lookup_election election_id d = Some el ->
  Election.start_date el <= now 0%nat -> now 1%nat <= Election.end_date el ->
  has_voted (id u) election_id d = false ->
  fst (handle (Some u) now oid (CastVote election_id candidate_id) d) = Return VoteCast /\
  votes (snd (handle (Some u) now oid (CastVote election_id candidate_id) d)) =
    (votes d ++ [Vote.mk (id u) election_id candidate_id])%list /\
  voters (snd (handle (Some u) now oid (CastVote election_id candidate_id) d)) = voters d.
Proof.
  intros Hel H0 H1 Hv.
  rewrite handle_after_create_admin. simpl.
  destruct (create_admin_other_collections d) as (Evo & _ & Eel & Evt & _).
  unfold session_user_id, bind, ret. simpl.
  rewrite cast_vote_cases. unfold lookup_election, has_voted in *.
  rewrite Eel, Evt, Hel.
  rewrite (proj2 (window_open_iff now el) (conj H0 H1)), Hv. simpl.
  rewrite Evt, Evo. repeat split.
Qed.

Lemma any_logged_in_user_can_vote_witness :
  voters ballot_db = [] /\
  fst (handle admin_session (fun _ => 5) "o1" (CastVote "e1" "c1") ballot_db)
    = Return VoteCast /\
  votes (snd (handle admin_session (fun _ => 5) "o1" (CastVote "e1" "c1") ballot_db))
    = [Vote.mk "admin" "e1" "c1"].
Proof.
  split; [reflexivity|].
  destruct (@any_logged_in_user_can_vote (mkUser "admin" "admin") (fun _ => 5) "o1"
              "e1" "c1" ballot_db (Election.mk "e1" "General" 0 10 (Some [])))
    as (H1 & H2 & _); [reflexivity | simpl; lia | simpl; lia | reflexivity |].
  split; [exact H1 | exact H2].
Defined.

(** ** Notifications *)

(** X12: a refused [cast_vote] writes nothing at all, and an accepted one
    writes exactly the Vote record and one confirmation for the voter, stamped
    with the third clock reading; [get_notifications] for the voter then
    shows that confirmation after the earlier ones. *)
Theorem cast_vote_writes voter_id now election_id candidate_id d :
  (fst (cast_vote voter_id now election_id candidate_id d) <> Return VoteCast ->
   snd (cast_vote voter_id now election_id candidate_id d) = d) /\
  (fst (cast_vote voter_id now election_id candidate_id d) = Return VoteCast ->
   snd (cast_vote voter_id now election_id candidate_id d) =
     set_notifications
       (notifications d ++
          [Notification.mk voter_id (confirmation election_id) (now 2%nat)])
       (set_votes (votes d ++ [Vote.mk voter_id election_id candidate_id]) d) /\
   get_notifications voter_id (snd (cast_vote voter_id now election_id candidate_id d)) =
     (Return (format_response true "Notifications retrieved successfully."
                (Some (NotificationList
                         (notifications_of voter_id d ++
                            [(confirmation election_id, now 2%nat)])))),
      snd (cast_vote voter_id now election_id candidate_id d))).
Proof.
  rewrite cast_vote_cases.
  destruct (lookup_election election_id d) as [el|];
    [|split; [reflexivity | discriminate]].
  destruct (_ || _); [split; [reflexivity | discriminate]|].
  destruct (has_voted voter_id election_id d); [split; [reflexivity | discriminate]|].
  simpl. split; [congruence|]. intros _. split; [reflexivity|].
  rewrite get_notifications_cases. unfold notifications_of. simpl.
  rewrite filter_app, map_app. simpl. rewrite String.eqb_refl. reflexivity.
Qed.

Lemma cast_vote_writes_witness :
  snd (cast_vote "v1" (fun _ => 5) "e1" "c2" voted_db) = voted_db /\
  notifications (snd (cast_vote "v1" (fun k => 5 + Z.of_nat k) "e1" "c1" ballot_db))
    = [Notification.mk "v1" "Your vote in election e1 has been successfully cast." 7].
Proof.
  destruct (cast_vote_writes "v1" (fun _ => 5) "e1" "c2" voted_db) as [H1 _].
  destruct (cast_vote_writes "v1" (fun k => 5 + Z.of_nat k) "e1" "c1" ballot_db)
    as [_ H2].
  split; [apply H1; discriminate|].
  destruct H2 as [H2 _]; [reflexivity|]. rewrite H2. reflexivity.
Defined.

(** X13: [send_notification] refuses an empty recipient or an empty message
    and writes nothing then; otherwise it stores the message, stamped with
    the clock, so that [get_notifications] for the recipient shows it after
    the earlier ones, while what any other recipient is shown does not
    change. *)
Theorem send_then_get_notifications now recipient_id message d :
  (recipient_id = "" \/ message = "" ->
   send_notification now recipient_id message d =
   (Return (format_response false "Recipient ID and message are required." None), d)) /\
  (recipient_id <> "" -> message <> "" ->
   fst (send_notification now recipient_id message d) =
     Return (format_response true "Notification sent successfully." None) /\
   fst (get_notifications recipient_id (snd (send_notification now recipient_id message d)))
     = Return (format_response true "Notifications retrieved successfully."
                 (Some (NotificationList
                          (notifications_of recipient_id d ++ [(message, now 0%nat)])))) /\
   forall other, other <> recipient_id ->
     fst (get_notifications other (snd (send_notification now recipient_id message d)))
     = fst (get_notifications other d)).
Proof.
  rewrite send_notification_cases. unfold falsy. split.
  - intros [-> | ->]; simpl; [reflexivity|].
    rewrite orb_true_r. reflexivity.
  - intros Hr Hm.
    apply String.eqb_neq in Hr, Hm. rewrite Hr, Hm. simpl.
    split; [reflexivity|].
    unfold get_notifications, notifications_of. run_handler. split.
    + rewrite filter_app, map_app. simpl. rewrite String.eqb_refl. reflexivity.
    + intros other Ho. rewrite filter_app, map_app. simpl.
      assert (E : (recipient_id =? other)%string = false)
        by (apply String.eqb_neq; congruence).
      rewrite E. simpl. rewrite app_nil_r. reflexivity.
Qed.

Lemma send_then_get_notifications_witness :
  snd (send_notification (fun _ => 3) "v1" "" seeded_db) = seeded_db /\
  fst (get_notifications "v1" (snd (send_notification (fun _ => 3) "v1" "Polls open" seeded_db)))
    = Return (format_response true "Notifications retrieved successfully."
                (Some (NotificationList [("Polls open", 3)]))).
Proof.
  destruct (send_then_get_notifications (fun _ => 3) "v1" "" seeded_db) as [H1 _].
  destruct (send_then_get_notifications (fun _ => 3) "v1" "Polls open" seeded_db)
    as [_ H2].
  split; [rewrite H1; [reflexivity | right; reflexivity]|].
  destruct H2 as (_ & H2 & _); [discriminate | discriminate |]. exact H2.
Defined.

(** ** Elections: listing, deleting, tallies *)

Lemma find_remove_first_same (election_id : Id) (l : list Election.t) :
  NoDup (map Election._id l) ->
  find (by_election_id election_id) (remove_first (by_election_id election_id) l) = None.
Proof.
  induction l as [|x l IH]; simpl; intros Hnd; [reflexivity|].
  inversion Hnd as [|? ? Hx Hl]; subst.
  destruct (by_election_id election_id x) eqn:E.
  - unfold by_election_id in E. apply String.eqb_eq in E.
    destruct (find (by_election_id election_id) l) as [y|] eqn:F; [|reflexivity].
    apply find_some in F. destruct F as [Hin Hy].
    unfold by_election_id in Hy. apply String.eqb_eq in Hy.
    exfalso. apply Hx. rewrite E, <- Hy. apply in_map. exact Hin.
  - simpl. rewrite E. apply IH. exact Hl.
Qed.

Lemma find_remove_first_other (election_id other : Id) (l : list Election.t) :
  other <> election_id ->
  find (by_election_id other) (remove_first (by_election_id election_id) l) =
  find (by_election_id other) l.
Proof.
  intros Hne. induction l as [|x l IH]; simpl; [reflexivity|].
  destruct (by_election_id election_id x) eqn:E.
  - unfold by_election_id in *. apply String.eqb_eq in E.
    assert (F : (Election._id x =? other)%string = false)
      by (apply String.eqb_neq; congruence).
    rewrite F. reflexivity.
  - simpl. rewrite IH. reflexivity.
Qed.

Lemma delete_election_cases election_id d :
  delete_election election_id d =
  (Return (if existsb (by_election_id election_id) (elections d)
           then ElectionDeleted else ElectionNotFound),
   set_elections (remove_first (by_election_id election_id) (elections d)) d).
Proof.
  unfold delete_election. run_handler.
  fold (by_election_id election_id).
  destruct (existsb _ (elections d)); reflexivity.
Qed.

(** X15: with election ids unique, a deleted election is gone: after
    [delete_election] no election has the id, so [cast_vote], [get_results]
    and a second [delete_election] on it all answer "Election not found.",
    while every other election is found as before. *)
Theorem deleted_election_is_gone election_id d :
  unique_election_ids d ->
  let d' := snd (delete_election election_id d) in
  lookup_election election_id d' = None /\
  (forall voter_id now candidate_id,
     cast_vote voter_id now election_id candidate_id d' = (Return ElectionNotFound, d')) /\
  get_results election_id d' = (Return ElectionNotFound, d') /\
  delete_election election_id d' = (Return ElectionNotFound, d') /\
  forall other, other <> election_id -> lookup_election other d' = lookup_election other d.
Proof.
  intros Hu d'.
  assert (Hgone : lookup_election election_id d' = None).
  { unfold d'. rewrite delete_election_cases. unfold lookup_election. simpl.
    apply find_remove_first_same, Hu. }
  split; [exact Hgone|]. split; [|split; [|split]].
  - intros voter_id now candidate_id. rewrite cast_vote_cases, Hgone. reflexivity.
  - unfold get_results. run_handler. unfold lookup_election, by_election_id in Hgone.
    rewrite Hgone. reflexivity.
  - rewrite delete_election_cases. unfold lookup_election in Hgone.
    rewrite <- find_truthy_existsb, Hgone. simpl.
    pose proof (remove_first_find (by_election_id election_id) (elections d')) as Hrm.
    rewrite Hgone in Hrm. rewrite Hrm. destruct d'; reflexivity.
  - intros other Hne. unfold d'. rewrite delete_election_cases.
    unfold lookup_election. simpl. apply find_remove_first_other, Hne.
Qed.

Lemma deleted_election_is_gone_witness :
  fst (delete_election "e1" two_elections_db) = Return ElectionDeleted /\
  fst (get_results "e1" (snd (delete_election "e1" two_elections_db)))
    = Return ElectionNotFound /\
  votes (snd (delete_election "e1" two_elections_db)) = [Vote.mk "v1" "e1" "c1"] /\
  lookup_election "e2" (snd (delete_election "e1" two_elections_db))
    = Some (Election.mk "e2" "Local" 20 30 (Some [])).
Proof.
  assert (Hu : unique_election_ids two_elections_db).
  { unfold unique_election_ids. simpl.
    repeat (constructor; [simpl; intuition discriminate|]). constructor. }
  destruct (deleted_election_is_gone "e1" Hu) as (_ & _ & Hg & _ & Ho).
  split; [reflexivity|]. split; [rewrite Hg; reflexivity|].
  split; [reflexivity|]. rewrite (Ho "e2"); [reflexivity | discriminate].
Defined.

Lemma Forall_remove_first {D} (P : D -> Prop) (q : D -> bool) (l : list D) :
  Forall P l -> Forall P (remove_first q l).
Proof.
  induction 1 as [|x l Hx Hl IH]; simpl; [constructor|].
  destruct (q x); [exact Hl | constructor; assumption].
Qed.

(** X16: no route writes a tally.  Every request keeps "each election has
    an empty tally", so this holds in every store reached from the empty
    one; and on such a store a [get_results] request, however many votes
    were cast, is answered with the redirection to the login page,
    "Election not found." or "No votes cast yet.", never with a report. *)
Theorem tallies_stay_empty :
  (forall s now oid r d,
     all_tallies_empty d -> all_tallies_empty (snd (handle s now oid r d))) /\
  (forall d, reachable d -> all_tallies_empty d) /\
  (forall d, all_tallies_empty d ->
   forall s now oid election_id,
     fst (handle s now oid (GetResults election_id) d) = Return (Redirect "login_page") \/
     fst (handle s now oid (GetResults election_id) d) = Return ElectionNotFound \/
     fst (handle s now oid (GetResults election_id) d) = Return NoVotesCast).
Proof.
  destruct (@invariant_by_route_write all_tallies_empty) as [Hstep Hreach].
  - intros l d H. exact H.
  - intros d d' Hw H. unfold all_tallies_empty in *. destruct Hw; simpl; try exact H.
    + apply Forall_app. split; [exact H|]. constructor; [reflexivity | constructor].
    + apply Forall_remove_first, H.
  - split; [exact Hstep|]. split; [apply Hreach; constructor|].
    intros d Hall s now oid election_id.
    rewrite handle_after_create_admin. simpl.
    destruct s as [u|]; simpl; [|left; reflexivity]. right.
    unfold get_results. run_handler.
    destruct (create_admin_other_collections d) as (_ & _ & Eel & _). rewrite Eel.
    destruct (find _ (elections d)) as [el|] eqn:F; [|left; reflexivity].
    apply find_some in F. destruct F as [Hin _].
    unfold all_tallies_empty in Hall. rewrite Forall_forall in Hall.
    rewrite (Hall el Hin). right. reflexivity.
Qed.

Lemma tallies_stay_empty_witness :
  votes voted_db = [Vote.mk "v1" "e1" "c1"] /\
  fst (handle (voter_session "v1") (fun _ => 6) "n2" (GetResults "e1") voted_db)
    = Return NoVotesCast /\
  all_tallies_empty
    (snd (handle (voter_session "v2") (fun _ => 6) "n3" (CastVote "e1" "c1") voted_db)).
Proof.
  assert (H0 : all_tallies_empty voted_db) by (repeat constructor).
  destruct tallies_stay_empty as (Hstep & _ & Hres).
  split; [reflexivity|]. split; [|apply Hstep, H0].
  destruct (Hres voted_db H0 (voter_session "v1") (fun _ => 6) "n2" "e1")
    as [E | [E | E]]; [discriminate E | discriminate E | exact E].
Defined.

(** ** Uncaught exceptions *)

Lemma get_results_raises election_id d e :
  fst (get_results election_id d) = Raise e ->
  e = TypeError /\
  exists el w,
    lookup_election election_id d = Some el /\
    py_max (keys (tally_of el)) (dict_get (tally_of el)) = Return w /\
    lookup_candidate w d = None.
Proof.
  unfold get_results, lookup_election, lookup_candidate, by_election_id. run_handler.
  destruct (find _ (elections d)) as [el|]; [|discriminate].
  unfold tally_of.
  destruct (Election.votes el) as [[|kv t]|] eqn:Hvotes; try discriminate.
  destruct (@py_max_votes (kv :: t)) as (w & n & Hw & Hn & _); [discriminate|].
  rewrite Hw. simpl.
  destruct (find _ (candidates d)) as [c|] eqn:Hc; simpl.
  - rewrite Hn. discriminate.
  - intros E. injection E as <-. split; [reflexivity|].
    exists el, w. rewrite Hvotes. repeat split; [exact Hw | exact Hc].
Qed.

(** X17: [get_results] ends in an uncaught exception exactly when the
    election exists, its tally is not empty and the winner that [max] picks
    has no Candidate record; the exception is then the TypeError of
    [winner['name']].  The ValueError of [max] on an empty tally and the
    KeyError of [votes[winner_id]] cannot occur. *)
Theorem get_results_raises_iff election_id d e :
  fst (get_results election_id d) = Raise e <->
  e = TypeError /\
  exists el w,
    lookup_election election_id d = Some el /\
    py_max (keys (tally_of el)) (dict_get (tally_of el)) = Return w /\
    lookup_candidate w d = None.
Proof.
  split; [apply get_results_raises|].
  intros (-> & el & w & Hel & Hw & Hc).
  unfold get_results, lookup_election, lookup_candidate, by_election_id in *. run_handler.
  rewrite Hel. unfold tally_of in Hw.
  destruct (Election.votes el) as [[|kv t]|]; try discriminate Hw.
  rewrite Hw. simpl. rewrite Hc. reflexivity.
Qed.

Lemma get_results_raises_iff_witness :
  fst (get_results "e1" orphan_winner_db) = Raise TypeError /\
  forall e, fst (get_results "e1" counted_db) <> Raise e.
Proof.
  split.
  - apply (proj2 (get_results_raises_iff "e1" orphan_winner_db TypeError)).
    split; [reflexivity|].
    exists (Election.mk "e1" "General" 0 10 (Some [("c1", 2); ("c2", 3)])), "c2".
    repeat split.
  - intros e H.
    apply (proj1 (get_results_raises_iff "e1" counted_db e)) in H.
    destruct H as (_ & el & w & Hel & Hw & Hc).
    injection Hel as <-. injection Hw as <-. discriminate Hc.
Defined.

(** ** The winner among equals *)

Lemma max_scan_first (key : Id -> option Z) (rest : list Id) :
  forall best vb w,
    key best = Some vb ->
    max_scan key best rest = Return w ->
    exists n,
      key w = Some n /\
      ((w = best /\ n = vb /\ forall k v, In k rest -> key k = Some v -> v <= n) \/
       (exists l1 l2,
          rest = (l1 ++ w :: l2)%list /\ vb < n /\
          (forall k v, In k l1 -> key k = Some v -> v < n) /\
          (forall k v, In k l2 -> key k = Some v -> v <= n))).
Proof.
  induction rest as [|k rest IH]; intros best vb w Hb H; simpl in H.
  - injection H as <-. exists vb. split; [exact Hb|]. left.
    repeat split. intros k v [].
  - rewrite Hb in H. destruct (key k) as [vk|] eqn:Hk; [|discriminate].
    destruct (vk >? vb) eqn:E; rewrite Z.gtb_ltb in E.
    + apply Z.ltb_lt in E.
      destruct (IH k vk w Hk H) as (n & Hn & [(-> & -> & Hrest) | (l1 & l2 & -> & Hlt & H1 & H2)]).
      * exists vk. split; [exact Hn|]. right. exists [], rest.
        repeat split; [exact E | intros k' v' [] | exact Hrest].
      * exists n. split; [exact Hn|]. right. exists (k :: l1), l2.
        repeat split; [lia | | exact H2].
        intros k' v' [<- | Hin] Hv; [|exact (H1 k' v' Hin Hv)].
        rewrite Hk in Hv. injection Hv as <-. exact Hlt.
    + apply Z.ltb_ge in E.
      destruct (IH best vb w Hb H)
        as (n & Hn & [(-> & -> & Hrest) | (l1 & l2 & -> & Hlt & H1 & H2)]).
      * exists vb. split; [exact Hn|]. left. repeat split.
        intros k' v' [<- | Hin] Hv; [|exact (Hrest k' v' Hin Hv)].
        rewrite Hk in Hv. injection Hv as <-. exact E.
      * exists n. split; [exact Hn|]. right. exists (k :: l1), l2.
        repeat split; [exact Hlt | | exact H2].
        intros k' v' [<- | Hin] Hv; [|exact (H1 k' v' Hin Hv)].
        rewrite Hk in Hv. injection Hv as <-. lia.
Qed.

(** X18: ties go to the candidate met first.  The winner that
    [max(votes, key=votes.get)] picks is the first key, in the iteration
    order of the tally, whose count is the greatest: every key before it has
    a strictly smaller count and every key after it a count that is not
    greater. *)
Theorem winner_is_first_maximum (t : tally) (w : Id) :
  py_max (keys t) (dict_get t) = Return w ->
  exists l1 l2 n,
    keys t = (l1 ++ w :: l2)%list /\ dict_get t w = Some n /\
    (forall k v, In k l1 -> dict_get t k = Some v -> v < n) /\
    (forall k v, In k l2 -> dict_get t k = Some v -> v <= n).
Proof.
  destruct t as [|[k0 v0] t]; [discriminate|]. intros H.
  assert (H0 : dict_get ((k0, v0) :: t) k0 = Some v0).
  { unfold dict_get. simpl. rewrite String.eqb_refl. reflexivity. }
  change (max_scan (dict_get ((k0, v0) :: t)) k0 (keys t) = Return w) in H.
  destruct (@max_scan_first _ _ _ _ _ H0 H)
    as (n & Hn & [(-> & -> & Hrest) | (l1 & l2 & E & Hlt & H1 & H2)]).
  - exists [], (keys t), v0. repeat split; [exact Hn | intros k v [] | exact Hrest].
  - exists (k0 :: l1), l2, n. change (keys ((k0, v0) :: t)) with (k0 :: keys t).
    rewrite E. repeat split; [exact Hn | | exact H2].
    intros k v [<- | Hin] Hv; [|exact (H1 k v Hin Hv)].
    rewrite H0 in Hv. injection Hv as <-. exact Hlt.
Qed.

Lemma winner_is_first_maximum_witness :
  exists l1 l2 n,
    keys [("c2", 1); ("c1", 4); ("c3", 4)] = (l1 ++ "c1" :: l2)%list /\
    dict_get [("c2", 1); ("c1", 4); ("c3", 4)] "c1" = Some n /\
    (forall k v, In k l1 -> dict_get [("c2", 1); ("c1", 4); ("c3", 4)] k = Some v -> v < n) /\
    (forall k v, In k l2 -> dict_get [("c2", 1); ("c1", 4); ("c3", 4)] k = Some v -> v <= n).
Proof.
  apply (@winner_is_first_maximum [("c2", 1); ("c1", 4); ("c3", 4)] "c1").
  reflexivity.
Defined.

(** ** Logging in *)

Lemma find_voter_after_registration cnic dob (l : list Voter.t) (v : Voter.t) :
  existsb (fun v0 => (Voter.cnic v0 =? cnic)%string) l = false ->
  find (fun v0 => (Voter.cnic v0 =? cnic)%string && (Voter.dob v0 =? dob)%string) (l ++ [v])
  = find (fun v0 => (Voter.cnic v0 =? cnic)%string && (Voter.dob v0 =? dob)%string) [v].
Proof.
  induction l as [|x l IH]; [reflexivity|]. simpl. intros H.
  apply orb_false_iff in H. destruct H as [Hx Hl].
  rewrite Hx. simpl. apply IH, Hl.
Qed.

(** X19: a voter registered through [register_voter] cannot log in.  The
    document it writes has no [voter_id] field; [login] with the registered
    CNIC and date of birth finds that document, the only one with the CNIC,
    and reads [user['voter_id']]: the request ends in a KeyError and no
    session is written, whether or not an admin has the same credentials.
    (The age is at least 18 and fits a BSON integer, so that the registration
    is accepted.) *)
Theorem registered_voter_cannot_log_in name cnic dob age s d :
  cnic_registered cnic d = false -> 18 <= age -> age < 2 ^ 63 ->
  fst (register_voter name cnic dob age d) = Return VoterRegistered /\
  login cnic dob s (snd (register_voter name cnic dob age d)) =
    (Raise KeyError, snd (register_voter name cnic dob age d)).
Proof.
  intros Hc Ha Hb. rewrite register_voter_cases, Hc.
  assert (Hi : bson_int age = true).
  { unfold bson_int. apply andb_true_iff. split; [apply Z.leb_le | apply Z.ltb_lt]; lia. }
  apply Z.ltb_ge in Ha. rewrite Ha, Hi. simpl. split; [reflexivity|].
  unfold login. run_handler.
  unfold cnic_registered in Hc.
  rewrite (find_voter_after_registration cnic dob (voters d) _ Hc). simpl.
  rewrite !String.eqb_refl. reflexivity.
Qed.

Lemma registered_voter_cannot_log_in_witness :
  fst (register_voter "Bob" "61101" "1990-05-05" 30 seeded_db) = Return VoterRegistered /\
  fst (login "61101" "1990-05-05" None
         (snd (register_voter "Bob" "61101" "1990-05-05" 30 seeded_db))) = Raise KeyError.
Proof.
  destruct (@registered_voter_cannot_log_in "Bob" "61101" "1990-05-05" 30 None seeded_db)
    as [H1 H2]; [reflexivity | lia | lia |].
  split; [exact H1 | rewrite H2; reflexivity].
Defined.

(** X20: on a store whose only admin is the bootstrap one and where no voter
    carries the credentials tried: [login] with "admin_cnic" and "1970-01-01"
    answers "Login successful" and leaves the session of user "admin" with
    role "admin", under which an [admin_required] route runs (a well-scheduled
    election is created); any other credentials are answered
    "Invalid credentials" and leave the session as it was.  [login] never
    writes the store. *)
Theorem bootstrap_admin_can_log_in s d :
  admins d = [bootstrap_admin] ->
  (voter_matches "admin_cnic" "1970-01-01" d = false ->
   login "admin_cnic" "1970-01-01" s d =
     (Return (mkLoginReply true "Login successful" (Some "admin"),
              Some (mkUser "admin" "admin")), d)) /\
  (forall now oid name start_date end_date,
     start_date < end_date ->
     fst (handle (Some (mkUser "admin" "admin")) now oid
            (CreateElection name start_date end_date) d) = Return ElectionCreated) /\
  (forall cnic dob,
     voter_matches cnic dob d = false ->
     cnic <> "admin_cnic" \/ dob <> "1970-01-01" ->
     login cnic dob s d =
       (Return (mkLoginReply false "Invalid credentials" None, s), d)).
Proof.
  intros Hadm. split; [|split].
  - intros Hv. unfold login, voter_matches in *. run_handler.
    rewrite <- find_truthy_existsb in Hv.
    destruct (find _ (voters d)); [discriminate|]. simpl.
    rewrite Hadm. reflexivity.
  - intros now oid name sd ed Hlt.
    rewrite handle_after_create_admin. simpl.
    unfold create_election.
    assert (E : (sd >=? ed) = false) by (rewrite Z.geb_leb; apply Z.leb_gt; exact Hlt).
    rewrite E. reflexivity.
  - intros cnic dob Hv Hne. unfold login, voter_matches in *. run_handler.
    rewrite <- find_truthy_existsb in Hv.
    destruct (find _ (voters d)); [discriminate|]. cbn [fst snd].
    rewrite Hadm. unfold bootstrap_admin. cbn [find Admin.cnic Admin.dob].
    assert (E : ("admin_cnic" =? cnic)%string && ("1970-01-01" =? dob)%string = false).
    { apply andb_false_iff.
      destruct Hne as [H|H]; [left | right]; apply String.eqb_neq; congruence. }
    rewrite E. reflexivity.
Qed.

Lemma bootstrap_admin_can_log_in_witness :
  fst (login "admin_cnic" "1970-01-01" None seeded_db) =
    Return (mkLoginReply true "Login successful" (Some "admin"),
            Some (mkUser "admin" "admin")) /\
  fst (login "admin_cnic" "1970-01-02" None seeded_db) =
    Return (mkLoginReply false "Invalid credentials" None, None).
Proof.
  destruct (@bootstrap_admin_can_log_in None seeded_db eq_refl) as (H1 & _ & H3).
  split; [rewrite H1; reflexivity|].
  rewrite (H3 "admin_cnic" "1970-01-02"); [reflexivity | reflexivity |].
  right. discriminate.
Defined.
